(** * Notebook web service handlers (IPython/html/services/notebooks/handlers.py)

    A shallow embedding of the Tornado handlers of the notebooks REST
    service: [NotebookHandler], [NotebookCheckpointsHandler] and
    [ModifyNotebookCheckpointsHandler].  A handler method is a computation
    over the handler object (the response being built, the notebook manager
    and the log) that either returns or raises a Python exception.

    The notebook manager is an interface of the source ([self.notebook_manager]),
    so it is a type class here; [url_path_join] and [json.dumps] are imported
    functions and are taken as operations of a second class. *)

From Stdlib Require Import ZArith Ascii String List.
From stdpp Require Import gmap strings pretty.

Set Warnings "-register-all".

Local Open Scope string_scope.
Local Open Scope Z_scope.

(** ** Python values

    The data the handlers touch: parsed JSON bodies, the models the notebook
    manager returns (dicts that also hold datetimes) and header values.
    JSON numbers are kept as integers; a dict is an association list in
    insertion order with unique keys. *)

Inductive value : Type :=
  | VNone
  | VBool (b : bool)
  | VInt (n : Z)
  | VStr (s : string)
  | VList (xs : list value)
  | VDict (items : list (string * value))
  | VDate (t : Z).

(** Python's truth test, as used by [if model:]. *)
Definition truthy (v : value) : bool :=
  match v with
  | VNone => false
  | VBool b => b
  | VInt n => negb (n =? 0)
  | VStr s => negb (s =? "")%string
  | VList xs => match xs with [] => false | _ => true end
  | VDict items => match items with [] => false | _ => true end
  | VDate _ => true
  end.

(** [x is None] *)
Definition is_None (v : value) : bool :=
  match v with VNone => true | _ => false end.

(** [s or ''] for an optional string: the string itself when it is truthy. *)
Definition or_empty (s : option string) : string :=
  match s with
  | Some s => s
  | None => ""
  end.

(** Truth test of [name] in [if name:], [name] being [None] or a string. *)
Definition name_given (name : option string) : bool :=
  match name with
  | Some s => negb (s =? "")%string
  | None => false
  end.

(** [v != s] where [s] is a string: only an equal string compares equal. *)
Definition ne_str (v : value) (s : string) : bool :=
  match v with
  | VStr s' => negb (s' =? s)%string
  | _ => true
  end.

Fixpoint dict_get (items : list (string * value)) (k : string) : option value :=
  match items with
  | [] => None
  | (k', v) :: rest => if (k' =? k)%string then Some v else dict_get rest k
  end.

Fixpoint dict_set (items : list (string * value)) (k : string) (v : value)
  : list (string * value) :=
  match items with
  | [] => [(k, v)]
  | (k', v') :: rest =>
      if (k' =? k)%string then (k, v) :: rest else (k', v') :: dict_set rest k v
  end.

(** [str.strip('/')] *)
Fixpoint lstrip_slash (s : string) : string :=
  match s with
  | String c s' => if Ascii.eqb c "/"%char then lstrip_slash s' else s
  | EmptyString => EmptyString
  end.

Fixpoint rstrip_slash (s : string) : string :=
  match s with
  | String c s' =>
      match rstrip_slash s' with
      | EmptyString => if Ascii.eqb c "/"%char then EmptyString else String c EmptyString
      | r => String c r
      end
  | EmptyString => EmptyString
  end.

Definition strip_slash (s : string) : string := rstrip_slash (lstrip_slash s).

(** ** Exceptions *)

Inductive exn : Type :=
  | HTTPError (status_code : Z) (log_message : option string)
  | KeyError (key : string)
  | TypeError
  | AttributeError
  | RuntimeError (msg : string)
  | Exception (msg : string).

(** [d[k]]: a missing key raises [KeyError]; a string subscript on anything
    that is not a dict raises [TypeError]. *)
Definition getitem (d : value) (k : string) : exn + value :=
  match d with
  | VDict items =>
      match dict_get items k with
      | Some v => inr v
      | None => inl (KeyError k)
      end
  | _ => inl TypeError
  end.

(** [d[k] = v] *)
Definition setitem (d : value) (k : string) (v : value) : exn + value :=
  match d with
  | VDict items => inr (VDict (dict_set items k v))
  | _ => inl TypeError
  end.

(** ** The notebook manager

    Each method takes the manager's state and returns a value or raises,
    together with the state it leaves behind.  A [call] names a method with
    its arguments, in the order the source passes them. *)

Inductive call : Type :=
  | list_notebooks_ (path : string)
  | get_notebook_model_ (name path : string)
  | update_notebook_model_ (model : value) (name path : string)
  | copy_notebook_ (from_name : string) (to_name : option string) (path : string)
  | create_notebook_model_ (model : value) (path : string)
  | save_notebook_model_ (model : value) (name path : string)
  | notebook_exists_ (name path : string)
  | delete_notebook_model_ (name : option string) (path : string)
  | list_checkpoints_ (name path : string)
  | create_checkpoint_ (name path : string)
  | restore_checkpoint_ (checkpoint_id name path : string)
  | delete_checkpoint_ (checkpoint_id name path : string).

Class NotebookManager (S : Type) : Type := {
  list_notebooks : string -> S -> (exn + value) * S;
  get_notebook_model : string -> string -> S -> (exn + value) * S;
  update_notebook_model : value -> string -> string -> S -> (exn + value) * S;
  copy_notebook : string -> option string -> string -> S -> (exn + value) * S;
  create_notebook_model : value -> string -> S -> (exn + value) * S;
  save_notebook_model : value -> string -> string -> S -> (exn + value) * S;
  notebook_exists : string -> string -> S -> (exn + value) * S;
  delete_notebook_model : option string -> string -> S -> (exn + value) * S;
  list_checkpoints : string -> string -> S -> (exn + value) * S;
  create_checkpoint : string -> string -> S -> (exn + value) * S;
  restore_checkpoint : string -> string -> string -> S -> (exn + value) * S;
  delete_checkpoint : string -> string -> string -> S -> (exn + value) * S
}.

Definition invoke {S : Type} `{NotebookManager S} (c : call) : S -> (exn + value) * S :=
  match c with
  | list_notebooks_ path => list_notebooks path
  | get_notebook_model_ name path => get_notebook_model name path
  | update_notebook_model_ model name path => update_notebook_model model name path
  | copy_notebook_ from_name to_name path => copy_notebook from_name to_name path
  | create_notebook_model_ model path => create_notebook_model model path
  | save_notebook_model_ model name path => save_notebook_model model name path
  | notebook_exists_ name path => notebook_exists name path
  | delete_notebook_model_ name path => delete_notebook_model name path
  | list_checkpoints_ name path => list_checkpoints name path
  | create_checkpoint_ name path => create_checkpoint name path
  | restore_checkpoint_ checkpoint_id name path => restore_checkpoint checkpoint_id name path
  | delete_checkpoint_ checkpoint_id name path => delete_checkpoint checkpoint_id name path
  end.

(** Imported functions: [IPython.html.utils.url_path_join] and
    [json.dumps(_, default=date_default)]. *)
Class Imports : Type := {
  url_path_join : list string -> string;
  json_dumps : value -> string
}.

(** ** The handler object *)

(** What the transport delivers with a request: the application's base URL,
    the value [get_json_body()] returns ([None] for an empty body) and the
    query arguments. *)
Record request : Type := Request {
  base_project_url : string;
  json_body : value;
  arguments : gmap string string
}.

Record handler (S : Type) : Type := Handler {
  req : request;
  status : Z;
  headers : gmap string value;
  written : list string;
  finished : bool;
  notebook_manager : S;
  manager_calls : list call;
  log : list string
}.

Arguments Handler {S}.
Arguments req {S}.
Arguments status {S}.
Arguments headers {S}.
Arguments written {S}.
Arguments finished {S}.
Arguments notebook_manager {S}.
Arguments manager_calls {S}.
Arguments log {S}.

(** A handler as Tornado hands it to a method: status 200, nothing written.
    (Tornado's default headers, Server, Content-Type and Date, are not
    touched by these handlers and are left out.) *)
Definition new_handler {S : Type} (r : request) (nbm : S) : handler S :=
  Handler r 200 ∅ [] false nbm [] [].

(** ** Computations over the handler *)

Definition M (S A : Type) : Type := handler S -> (exn + A) * handler S.

Definition ret {S A : Type} (a : A) : M S A := fun h => (inr a, h).

Definition raise {S A : Type} (e : exn) : M S A := fun h => (inl e, h).

Definition bind {S A B : Type} (m : M S A) (k : A -> M S B) : M S B :=
  fun h =>
    match m h with
    | (inr a, h') => k a h'
    | (inl e, h') => (inl e, h')
    end.

Declare Scope handler_scope.
Delimit Scope handler_scope with handler.
Notation "x <- m ;; k" := (bind m (fun x => k))
  (at level 100, m at next level, right associativity) : handler_scope.
Notation "m ;; k" := (bind m (fun _ => k))
  (at level 100, right associativity) : handler_scope.
Local Open Scope handler_scope.

(** Lift a pure result that may be an exception. *)
Definition lift {S A : Type} (r : exn + A) : M S A :=
  match r with
  | inr a => ret a
  | inl e => raise e
  end.

Section RequestHandler.
Context {S : Type} `{NotebookManager S} `{Imports}.

(** [self.set_status(code)] *)
Definition set_status (code : Z) : M S unit := fun h =>
  (inr tt,
   Handler (req h) code (headers h) (written h) (finished h)
     (notebook_manager h) (manager_calls h) (log h)).

(** [self.set_header(name, v)]: a header set twice keeps the last value. *)
Definition set_header (name : string) (v : value) : M S unit := fun h =>
  (inr tt,
   Handler (req h) (status h) (<[name := v]> (headers h)) (written h) (finished h)
     (notebook_manager h) (manager_calls h) (log h)).

(** [self.finish(chunk)]; Tornado refuses a second call. *)
Definition finish (chunk : option string) : M S unit := fun h =>
  if finished h then (inl (RuntimeError "finish() called twice"), h)
  else
    (inr tt,
     Handler (req h) (status h) (headers h)
       (written h ++ match chunk with Some c => [c] | None => [] end) true
       (notebook_manager h) (manager_calls h) (log h)).

(** [self.log.info(msg)] *)
Definition log_info (msg : string) : M S unit := fun h =>
  (inr tt,
   Handler (req h) (status h) (headers h) (written h) (finished h)
     (notebook_manager h) (manager_calls h) (log h ++ [msg])).

(** [self.get_json_body()] *)
Definition get_json_body : M S value := fun h => (inr (json_body (req h)), h).

(** [self.get_argument(name, default=default)] *)
Definition get_argument (name default_ : string) : M S string := fun h =>
  (inr (default default_ (arguments (req h) !! name)), h).

(** [self.base_project_url] *)
Definition get_base_project_url : M S string := fun h =>
  (inr (base_project_url (req h)), h).

(** A method call on [self.notebook_manager]: the call is recorded, and the
    manager's state is replaced by the one the method leaves. *)
Definition nbm (c : call) : M S value := fun h =>
  let '(r, s') := invoke c (notebook_manager h) in
  (r,
   Handler (req h) (status h) (headers h) (written h) (finished h)
     s' (manager_calls h ++ [c]) (log h)).

(** A string argument of [url_path_join]: the function calls string methods
    on each piece, so any other value raises [AttributeError]. *)
Definition as_str (v : value) : M S string :=
  match v with
  | VStr s => ret s
  | _ => raise AttributeError
  end.

(** Modelled from the spec: the [json_errors] decorator of
    [IPython.html.base.handlers], which is not among the sources.  Every
    error is translated to an HTTP status with a JSON error body
    [{message}] and the request terminates; an [HTTPError] carries its
    status, anything else is an internal server error (500). *)
Definition json_errors (method : M S unit) : M S unit := fun h =>
  match method h with
  | (inr tt, h') => (inr tt, h')
  | (inl e, h') =>
      let '(code, message) :=
        match e with
        | HTTPError code (Some msg) => (code, VStr msg)
        | HTTPError code None => (code, VNone)
        | _ => (500, VStr "Unknown server error")
        end in
      (set_status code ;;
       finish (Some (json_dumps (VDict [("message", message)])))) h'
  end.

End RequestHandler.

(** [if s:] for a string. *)
Definition nonempty (s : string) : bool := negb (s =? "")%string.

(** ** NotebookHandler

    Each method of the source is decorated with [json_errors]: [put_body] is
    the function as written and [put] the decorated method, and likewise for
    the other verbs.  ([web.authenticated] is the session check, taken as
    passed when a request reaches a method.)  [name] is [None] when the URL
    names a directory. *)

Module NotebookHandler.
Section Methods.
Context {S : Type} `{NotebookManager S} `{Imports}.

(** Return the full URL location of a notebook. *)
Definition notebook_location (name path : value) : M S string :=
  base <- get_base_project_url ;;
  path <- as_str path ;;
  name <- as_str name ;;
  ret (url_path_join [base; "api"; "notebooks"; path; name]).

(** Finish a JSON request with a model, setting relevant headers, etc. *)
Definition _finish_model (model : value) (location : bool) : M S unit :=
  (if location then
     name <- lift (getitem model "name") ;;
     path <- lift (getitem model "path") ;;
     location <- notebook_location name path ;;
     set_header "Location" (VStr location)
   else ret tt) ;;
  last_modified <- lift (getitem model "last_modified") ;;
  set_header "Last-Modified" last_modified ;;
  finish (Some (json_dumps model)).

(** Return a Notebook or list of notebooks. *)
Definition get_body (path : string) (name : option string) : M S unit :=
  match name with
  | None =>
      notebooks <- nbm (list_notebooks_ path) ;;
      finish (Some (json_dumps notebooks))
  | Some name =>
      model <- nbm (get_notebook_model_ name path) ;;
      _finish_model model false
  end.

Definition get (path : string) (name : option string) : M S unit :=
  json_errors (get_body path name).

(** PATCH renames a notebook without re-uploading content. *)
Definition patch_body (path : string) (name : option string) : M S unit :=
  match name with
  | None => raise (HTTPError 400 (Some "Notebook name missing"))
  | Some name =>
      model <- get_json_body ;;
      if is_None model then raise (HTTPError 400 (Some "JSON body missing"))
      else
        model <- nbm (update_notebook_model_ model name path) ;;
        _finish_model model true
  end.

Definition patch (path : string) (name : option string) : M S unit :=
  json_errors (patch_body path name).

(** Copy a notebook in path, optionally specifying the new name. *)
Definition _copy_notebook (copy_from path : string) (copy_to : option string)
  : M S unit :=
  log_info ("Copying notebook from " ++ path ++ "/" ++ copy_from
            ++ " to " ++ path ++ "/" ++ or_empty copy_to) ;;
  model <- nbm (copy_notebook_ copy_from copy_to path) ;;
  set_status 201 ;;
  _finish_model model true.

(** Upload a notebook.  If name specified, create it in path/name. *)
Definition _upload_notebook (model : value) (path : string) (name : option string)
  : M S unit :=
  log_info ("Uploading notebook to " ++ path ++ "/" ++ or_empty name) ;;
  model <- (if name_given name
            then lift (setitem model "name" (VStr (or_empty name)))
            else ret model) ;;
  model <- nbm (create_notebook_model_ model path) ;;
  set_status 201 ;;
  _finish_model model true.

(** Create an empty notebook in path.  If name specified, create it in
    path/name. *)
Definition _create_empty_notebook (path : string) (name : option string)
  : M S unit :=
  log_info ("Creating new notebook in " ++ path ++ "/" ++ or_empty name) ;;
  model <- (if name_given name
            then lift (setitem (VDict []) "name" (VStr (or_empty name)))
            else ret (VDict [])) ;;
  model <- nbm (create_notebook_model_ model path) ;;
  set_status 201 ;;
  _finish_model model true.

(** Save an existing notebook. *)
Definition _save_notebook (model : value) (path name : string) : M S unit :=
  log_info ("Saving notebook at " ++ path ++ "/" ++ name) ;;
  model <- nbm (save_notebook_model_ model name path) ;;
  model_path <- lift (getitem model "path") ;;
  location <- (if ne_str model_path (strip_slash path) then ret true
               else
                 model_name <- lift (getitem model "name") ;;
                 ret (ne_str model_name name)) ;;
  _finish_model model location.

(** Create a new notebook in the specified path. *)
Definition post_body (path : string) (name : option string) : M S unit :=
  model <- get_json_body ;;
  copy <- get_argument "copy" "" ;;
  match name with
  | Some _ =>
      raise (HTTPError 400 (Some "Only POST to directories. Use PUT for full names"))
  | None =>
      if nonempty copy then _copy_notebook copy path None
      else if truthy model then _upload_notebook model path None
      else _create_empty_notebook path None
  end.

Definition post (path : string) (name : option string) : M S unit :=
  json_errors (post_body path name).

(** Saves the notebook in the location specified by name and path. *)
Definition put_body (path : string) (name : option string) : M S unit :=
  match name with
  | None =>
      raise (HTTPError 400 (Some "Only PUT to full names. Use POST for directories."))
  | Some name =>
      model <- get_json_body ;;
      copy <- get_argument "copy" "" ;;
      if nonempty copy then
        (if negb (is_None model) then raise (HTTPError 400 None) else ret tt) ;;
        _copy_notebook copy path (Some name)
      else if truthy model then
        found <- nbm (notebook_exists_ name path) ;;
        if truthy found then _save_notebook model path name
        else _upload_notebook model path (Some name)
      else _create_empty_notebook path (Some name)
  end.

Definition put (path : string) (name : option string) : M S unit :=
  json_errors (put_body path name).

(** delete the notebook in the given notebook path *)
Definition delete_body (path : string) (name : option string) : M S unit :=
  nbm (delete_notebook_model_ name path) ;;
  set_status 204 ;;
  finish None.

Definition delete (path : string) (name : option string) : M S unit :=
  json_errors (delete_body path name).

End Methods.
End NotebookHandler.

(** ** NotebookCheckpointsHandler

    Both routes to the checkpoint handlers bind [path] and [name], so [name]
    is a string here. *)

Module NotebookCheckpointsHandler.
Section Methods.
Context {S : Type} `{NotebookManager S} `{Imports}.

(** get lists checkpoints for a notebook *)
Definition get_body (path name : string) : M S unit :=
  checkpoints <- nbm (list_checkpoints_ name path) ;;
  finish (Some (json_dumps checkpoints)).

Definition get (path name : string) : M S unit :=
  json_errors (get_body path name).

(** post creates a new checkpoint *)
Definition post_body (path name : string) : M S unit :=
  checkpoint <- nbm (create_checkpoint_ name path) ;;
  base <- get_base_project_url ;;
  checkpoint_id <- lift (getitem checkpoint "id") ;;
  checkpoint_id <- as_str checkpoint_id ;;
  set_header "Location"
    (VStr (url_path_join
             [base; "api/notebooks"; path; name; "checkpoints"; checkpoint_id])) ;;
  set_status 201 ;;
  finish (Some (json_dumps checkpoint)).

Definition post (path name : string) : M S unit :=
  json_errors (post_body path name).

End Methods.
End NotebookCheckpointsHandler.

(** ** ModifyNotebookCheckpointsHandler *)

Module ModifyNotebookCheckpointsHandler.
Section Methods.
Context {S : Type} `{NotebookManager S} `{Imports}.

(** post restores a notebook from a checkpoint *)
Definition post_body (path name checkpoint_id : string) : M S unit :=
  nbm (restore_checkpoint_ checkpoint_id name path) ;;
  set_status 204 ;;
  finish None.

Definition post (path name checkpoint_id : string) : M S unit :=
  json_errors (post_body path name checkpoint_id).

(** delete clears a checkpoint for a given notebook *)
Definition delete_body (path name checkpoint_id : string) : M S unit :=
  nbm (delete_checkpoint_ checkpoint_id name path) ;;
  set_status 204 ;;
  finish None.

Definition delete (path name checkpoint_id : string) : M S unit :=
  json_errors (delete_body path name checkpoint_id).

End Methods.
End ModifyNotebookCheckpointsHandler.

(** ** An in-memory notebook manager

    A small instance of the interface, used to run the handlers on concrete
    requests: the notebooks are (path, name) pairs, paths are kept without
    leading and trailing slashes, and a counter serves as the clock.  A
    missing notebook is a 404. *)

Module Example.

Record store : Type := Store {
  notebooks : list (string * string);
  clock : Z
}.

Definition same (path name : string) (d : string * string) : bool :=
  ((fst d =? path)%string && (snd d =? name)%string)%bool.

Definition has (s : store) (name path : string) : bool :=
  existsb (same path name) (notebooks s).

Definition add (name path : string) (s : store) : store :=
  Store ((path, name) :: notebooks s) (clock s + 1).

Definition remove (name path : string) (s : store) : store :=
  Store (List.filter (fun d => negb (same path name d)) (notebooks s)) (clock s).

Definition model (name path : string) (t : Z) : value :=
  VDict [("name", VStr name); ("path", VStr path); ("last_modified", VDate t)].

Definition not_found : exn := HTTPError 404 (Some "Notebook does not exist").

(** [m.get(k, default_)] restricted to string entries. *)
Definition str_field (m : value) (k default_ : string) : string :=
  match getitem m k with
  | inr (VStr x) => x
  | _ => default_
  end.

Definition checkpoint (s : store) : value :=
  VDict [("id", VStr "checkpoint"); ("last_modified", VDate (clock s))].

#[export] Instance manager : NotebookManager store := {
  list_notebooks path s :=
    (inr (VList (map (fun d => model (snd d) (fst d) (clock s))
                   (List.filter (fun d => (fst d =? strip_slash path)%string)
                      (notebooks s)))), s);
  get_notebook_model name path s :=
    if has s name (strip_slash path)
    then (inr (model name (strip_slash path) (clock s)), s)
    else (inl not_found, s);
  update_notebook_model m name path s :=
    let p := strip_slash path in
    if has s name p then
      let n' := str_field m "name" name in
      let p' := strip_slash (str_field m "path" p) in
      (inr (model n' p' (clock s)), add n' p' (remove name p s))
    else (inl not_found, s);
  copy_notebook from_name to_name path s :=
    let p := strip_slash path in
    if has s from_name p then
      let n := match to_name with
               | Some n => n
               | None => "Copy-" ++ from_name
               end in
      (inr (model n p (clock s)), add n p s)
    else (inl not_found, s);
  create_notebook_model m path s :=
    let p := strip_slash path in
    let n := str_field m "name" "Untitled0.ipynb" in
    (inr (model n p (clock s)), add n p s);
  save_notebook_model m name path s :=
    let p := strip_slash path in
    if has s name p then
      let n' := str_field m "name" name in
      (inr (model n' p (clock s)), add n' p (remove name p s))
    else (inl not_found, s);
  notebook_exists name path s := (inr (VBool (has s name (strip_slash path))), s);
  delete_notebook_model name path s :=
    match name with
    | Some n =>
        if has s n (strip_slash path)
        then (inr VNone, remove n (strip_slash path) s)
        else (inl not_found, s)
    | None => (inl not_found, s)
    end;
  list_checkpoints name path s :=
    if has s name (strip_slash path)
    then (inr (VList [checkpoint s]), s)
    else (inl not_found, s);
  create_checkpoint name path s :=
    if has s name (strip_slash path)
    then (inr (checkpoint s), s)
    else (inl not_found, s);
  restore_checkpoint checkpoint_id name path s :=
    if (has s name (strip_slash path) && (checkpoint_id =? "checkpoint")%string)%bool
    then (inr VNone, s)
    else (inl not_found, s);
  delete_checkpoint checkpoint_id name path s :=
    if (has s name (strip_slash path) && (checkpoint_id =? "checkpoint")%string)%bool
    then (inr VNone, s)
    else (inl not_found, s)
}.

(** Join URL pieces with single slashes, keeping a leading slash of the
    first piece and a trailing slash of the last one. *)
Definition starts_with_slash (s : string) : bool :=
  match s with
  | String c _ => Ascii.eqb c "/"%char
  | EmptyString => false
  end.

Fixpoint ends_with_slash (s : string) : bool :=
  match s with
  | String c EmptyString => Ascii.eqb c "/"%char
  | String _ s' => ends_with_slash s'
  | EmptyString => false
  end.

Definition join (pieces : list string) : string :=
  let initial := match pieces with p :: _ => starts_with_slash p | [] => false end in
  let final := match List.rev pieces with p :: _ => ends_with_slash p | [] => false end in
  let stripped := List.filter nonempty (map strip_slash pieces) in
  let result := String.concat "/" stripped in
  let result := if initial then "/" ++ result else result in
  let result := if final then result ++ "/" else result in
  if (result =? "//")%string then "/" else result.

(** A stand-in for the JSON encoder: it prints the keys of a dict and the
    atoms, which is all the examples look at. *)
Definition quote (s : string) : string := "'" ++ s ++ "'".

Definition dumps_atom (v : value) : string :=
  match v with
  | VNone => "null"
  | VBool true => "true"
  | VBool false => "false"
  | VInt n => pretty n
  | VStr s => quote s
  | VDate t => quote (pretty t)
  | VList _ => "[...]"
  | VDict _ => "{...}"
  end.

Definition dumps (v : value) : string :=
  match v with
  | VDict items =>
      "{" ++ String.concat ", "
               (map (fun kv => quote (fst kv) ++ ": " ++ dumps_atom (snd kv)) items)
          ++ "}"
  | VList xs => "[" ++ String.concat ", " (map dumps_atom xs) ++ "]"
  | _ => dumps_atom v
  end.

#[export] Instance imports : Imports := {
  url_path_join := join;
  json_dumps := dumps
}.

(** A store with one notebook, [work/a.ipynb], at time 7. *)
Definition one_notebook : store := Store [("work", "a.ipynb")] 7.

(** A body with content, as a client saves or uploads it. *)
Definition some_body : value := VDict [("content", VInt 1)].

(** A request with the given body and [copy] argument. *)
Definition request_with (body : value) (copy : option string) : request :=
  Request "/" body
    (match copy with
     | Some c => {["copy" := c]}
     | None => ∅
     end).

End Example.

(** ** Running a method *)

(** The handler object after [method] ran on a fresh handler for request
    [r] with the notebook manager in state [s]: its [status], [headers] and
    [written] are the response. *)
Definition respond {S : Type} (method : M S unit) (r : request) (s : S) : handler S :=
  snd (method (new_handler r s)).

(** The value of the [copy] query argument, as the methods read it. *)
Definition copy_argument (r : request) : string :=
  default "" (arguments r !! "copy").

(** The fields of a model as the notebook manager returns it. *)
Definition model_fields (m : value) (name path : string) (last_modified : value) : Prop :=
  getitem m "name" = inr (VStr name) /\
  getitem m "path" = inr (VStr path) /\
  getitem m "last_modified" = inr last_modified.

(** Everything of a handler but the request it was made for. *)
Definition outcome {S : Type} (h : handler S)
  : Z * gmap string value * list string * bool * S * list call * list string :=
  (status h, headers h, written h, finished h, notebook_manager h,
   manager_calls h, log h).

(** The same request with another body. *)
Definition with_body (r : request) (body : value) : request :=
  Request (base_project_url r) body (arguments r).

Definition rebody {S : Type} (body : value) (h : handler S) : handler S :=
  Handler (with_body (req h) body) (status h) (headers h) (written h) (finished h)
    (notebook_manager h) (manager_calls h) (log h).

Definition is_model (m : value) : Prop :=
  exists name path last_modified, model_fields m name path last_modified.

(** The model an upload hands to the manager: the body, with the caller's
    name stored under ["name"] when a name is given. *)
Definition named_model (model : value) (name : option string) : exn + value :=
  if name_given name then setitem model "name" (VStr (or_empty name)) else inr model.

(** The model of an empty notebook: [{}], with the caller's name when one
    is given. *)
Definition empty_model (name : option string) : value :=
  if name_given name then VDict [("name", VStr (or_empty name))] else VDict [].

Section States.
Context {S : Type} `{Imports}.

(** The URL of a notebook under the application [r] belongs to. *)
Definition location_of (r : request) (name path : string) : value :=
  VStr (url_path_join [base_project_url r; "api"; "notebooks"; path; name]).

(** The handler after [_finish_model] wrote [m]: [location] decides
    whether the Location header is set, Last-Modified always is. *)
Definition finished_with (h : handler S) (m : value) (name path : string)
    (last_modified : value) (location : bool) : handler S :=
  Handler (req h) (status h)
    (<["Last-Modified" := last_modified]>
       (if location
        then <["Location" := location_of (req h) name path]> (headers h)
        else headers h))
    (written h ++ [json_dumps m]) true
    (notebook_manager h) (manager_calls h) (log h).

(** The handler after the manager calls [cs], the last of which left the
    manager in [s'], with [msg] logged and the status set to [code]. *)
Definition called (h : handler S) (msg : list string) (cs : list call) (s' : S)
    (code : Z) : handler S :=
  Handler (req h) code (headers h) (written h) (finished h)
    s' (manager_calls h ++ cs) (log h ++ msg).

(** The handler after [json_errors] reported an [HTTPError]. *)
Definition failed_with (h : handler S) (code : Z) (msg : option string) : handler S :=
  Handler (req h) code (headers h)
    (written h ++
       [json_dumps
          (VDict [("message", match msg with Some m => VStr m | None => VNone end)])])
    true (notebook_manager h) (manager_calls h) (log h).

End States.

(** The response is a model written by [_finish_model] with status [code]:
    the body is the encoded model, Last-Modified is the model's timestamp
    and Location, when [location] holds, is the model's URL. *)
Definition model_response {S : Type} `{Imports} (h : handler S) (code : Z) (m : value)
    (location : bool) : Prop :=
  exists name path last_modified,
    model_fields m name path last_modified /\
    status h = code /\
    headers h !! "Last-Modified" = Some last_modified /\
    headers h !! "Location" =
      (if location then Some (location_of (req h) name path) else None) /\
    written h = [json_dumps m].

(** ** What a computation may change

    [keeps R m]: whatever [m] does, returning or raising, the handler it
    leaves is related by [R] to the one it started from. *)

Definition keeps {S A : Type} (R : handler S -> handler S -> Prop) (m : M S A) : Prop :=
  forall h r h', m h = (r, h') -> R h h'.

(** The notebook manager was not called. *)
Definition same_manager {S : Type} (h h' : handler S) : Prop :=
  manager_calls h' = manager_calls h /\ notebook_manager h' = notebook_manager h.

(** Nothing was written and the response was not finished. *)
Definition same_output {S : Type} (h h' : handler S) : Prop :=
  finished h' = finished h /\ written h' = written h.

(** The request is the same, and so is every header but Location and
    Last-Modified. *)
Definition same_other_headers {S : Type} (h h' : handler S) : Prop :=
  req h' = req h /\
  forall k : string,
    k <> "Location" -> k <> "Last-Modified" -> headers h' !! k = headers h !! k.

(** The Location header is as it was. *)
Definition same_location {S : Type} (h h' : handler S) : Prop :=
  headers h' !! "Location" = headers h !! "Location".

(** No header was touched. *)
Definition same_headers {S : Type} (h h' : handler S) : Prop :=
  headers h' = headers h.

(** [m] ends the request properly: started on a response that is not
    finished, it either returns with the response finished, or raises
    having written nothing and finished nothing. *)
Definition finishes {S : Type} (m : M S unit) : Prop :=
  forall h r h',
    finished h = false ->
    m h = (r, h') ->
    match r with
    | inr _ => finished h' = true
    | inl _ => finished h' = false /\ written h' = written h
    end.

(** [m] makes at most [n] calls to the notebook manager. *)
Definition calls_at_most {S A : Type} (n : nat) (m : M S A) : Prop :=
  forall h r h',
    m h = (r, h') ->
    exists cs : list call,
      manager_calls h' = (manager_calls h ++ cs)%list /\ (length cs <= n)%nat.

(** The methods of the three handler classes, with the arguments the routes
    of [default_handlers] bind. *)
Inductive endpoint : Type :=
  | notebook_get (path : string) (name : option string)
  | notebook_patch (path : string) (name : option string)
  | notebook_post (path : string) (name : option string)
  | notebook_put (path : string) (name : option string)
  | notebook_delete (path : string) (name : option string)
  | checkpoints_get (path name : string)
  | checkpoints_post (path name : string)
  | checkpoint_restore (path name checkpoint_id : string)
  | checkpoint_delete (path name checkpoint_id : string).

(** The function behind an endpoint, before [json_errors]. *)
Definition body_of {S : Type} `{NotebookManager S} `{Imports} (e : endpoint) : M S unit :=
  match e with
  | notebook_get path name => NotebookHandler.get_body path name
  | notebook_patch path name => NotebookHandler.patch_body path name
  | notebook_post path name => NotebookHandler.post_body path name
  | notebook_put path name => NotebookHandler.put_body path name
  | notebook_delete path name => NotebookHandler.delete_body path name
  | checkpoints_get path name => NotebookCheckpointsHandler.get_body path name
  | checkpoints_post path name => NotebookCheckpointsHandler.post_body path name
  | checkpoint_restore path name checkpoint_id =>
      ModifyNotebookCheckpointsHandler.post_body path name checkpoint_id
  | checkpoint_delete path name checkpoint_id =>
      ModifyNotebookCheckpointsHandler.delete_body path name checkpoint_id
  end.

(** The most calls an endpoint makes: PUT asks whether the notebook exists
    before it saves or creates. *)
Definition call_budget (e : endpoint) : nat :=
  match e with
  | notebook_put _ _ => 2%nat
  | _ => 1%nat
  end.

(** The endpoints that answer 204 with no body. *)
Definition answers_no_content (e : endpoint) : bool :=
  match e with
  | notebook_delete _ _ | checkpoint_restore _ _ _ | checkpoint_delete _ _ _ => true
  | _ => false
  end.

(** The call GET makes: it lists a directory or reads one notebook. *)
Definition get_call (path : string) (name : option string) : call :=
  match name with
  | None => list_notebooks_ path
  | Some n => get_notebook_model_ n path
  end.

(** A JSON object. *)
Definition is_dict (v : value) : bool :=
  match v with
  | VDict _ => true
  | _ => false
  end.

(** [s.startswith('/')] and [s.endswith('/')] *)
Definition has_leading_slash (s : string) : bool :=
  match s with
  | String c _ => Ascii.eqb c "/"%char
  | EmptyString => false
  end.

Fixpoint has_trailing_slash (s : string) : bool :=
  match s with
  | String c EmptyString => Ascii.eqb c "/"%char
  | String _ s' => has_trailing_slash s'
  | EmptyString => false
  end.

(** ** Running the primitives *)

Ltac run_step :=
  unfold lift, as_str, set_status, set_header, log_info,
    get_json_body, get_argument, get_base_project_url, bind, ret, raise; simpl.

(** Case analysis on the fields of a model and on the values read from it. *)
Ltac split_fields :=
  repeat (match goal with
          | |- context [match getitem ?m ?k with _ => _ end] => destruct (getitem m k)
          | |- context [match ?v with VStr _ => _ | _ => _ end] => is_var v; destruct v
          | |- context [if ?b then _ else _] => is_var b; destruct b
          end; simpl).

Section Primitives.
Context {S : Type} `{NotebookManager S} `{Imports}.

(** A computation that returned went through both halves of a [bind]. *)
Lemma bind_inr {A B : Type} (m : M S A) (k : A -> M S B) h b h' :
  bind m k h = (inr b, h') ->
  exists a h1, m h = (inr a, h1) /\ k a h1 = (inr b, h').
Proof.
  unfold bind. destruct (m h) as [[e | a] h1]; intros Hk.
  - discriminate.
  - now exists a, h1.
Qed.

Lemma nbm_result (c : call) (h : handler S) r s' :
  invoke c (notebook_manager h) = (r, s') ->
  nbm c h =
    (r, Handler (req h) (status h) (headers h) (written h) (finished h)
          s' (manager_calls h ++ [c]) (log h)).
Proof. intros Hc. unfold nbm. now rewrite Hc. Qed.

Lemma json_errors_returns (method : M S unit) h h' :
  method h = (inr tt, h') -> json_errors method h = (inr tt, h').
Proof. intros Hm. unfold json_errors. now rewrite Hm. Qed.

(** An [HTTPError] raised before anything was finished becomes the
    response status; nothing else of the handler changes but the body. *)
Lemma json_errors_http (method : M S unit) h h' code msg :
  method h = (inl (HTTPError code msg), h') ->
  finished h' = false ->
  json_errors method h = (inr tt, failed_with h' code msg).
Proof.
  intros Hm Hfin. unfold json_errors. rewrite Hm.
  destruct msg; run_step; unfold finish; simpl; now rewrite Hfin.
Qed.

End Primitives.

(** A [bind] that returned: keep what its second half did. *)
Ltac invert_bind H := apply bind_inr in H as (? & ? & _ & H).

(** ** The operations of NotebookHandler *)

Section Operations.
Context {S : Type} `{NotebookManager S} `{Imports}.

Lemma finish_model_returns (m : value) name path last_modified location
    (h : handler S) :
  model_fields m name path last_modified ->
  finished h = false ->
  NotebookHandler._finish_model m location h =
    (inr tt, finished_with h m name path last_modified location).
Proof.
  intros (Hn & Hp & Hl) Hfin.
  unfold NotebookHandler._finish_model, NotebookHandler.notebook_location.
  destruct location; run_step; rewrite ?Hn, ?Hp, Hl; simpl;
    unfold finish; simpl; rewrite Hfin; reflexivity.
Qed.

(** What [_finish_model] leaves on a handler that had written nothing and
    had no Location header. *)
Lemma finished_with_response (h : handler S) m name path lm location :
  model_fields m name path lm ->
  written h = [] ->
  headers h !! "Location" = None ->
  model_response (finished_with h m name path lm location) (status h) m location.
Proof.
  intros Hm Hw Hloc. exists name, path, lm. simpl.
  split; [exact Hm |]. split; [reflexivity |].
  split; [apply lookup_insert_eq |].
  split; [| now rewrite Hw].
  rewrite lookup_insert_ne by discriminate.
  destruct location; [apply lookup_insert_eq | exact Hloc].
Qed.

Lemma copy_notebook_returns copy_from path copy_to (h : handler S) m s'
    name' path' lm :
  copy_notebook copy_from copy_to path (notebook_manager h) = (inr m, s') ->
  model_fields m name' path' lm ->
  finished h = false ->
  NotebookHandler._copy_notebook copy_from path copy_to h =
    (inr tt,
     finished_with
       (called h ["Copying notebook from " ++ path ++ "/" ++ copy_from
                  ++ " to " ++ path ++ "/" ++ or_empty copy_to]
          [copy_notebook_ copy_from copy_to path] s' 201)
       m name' path' lm true).
Proof.
  intros Hc Hm Hfin. unfold NotebookHandler._copy_notebook.
  run_step.
  rewrite (nbm_result (copy_notebook_ copy_from copy_to path) _ (inr m) s') by exact Hc.
  simpl. now rewrite (finish_model_returns m name' path' lm true).
Qed.

Lemma upload_notebook_returns model path name (h : handler S) named m s'
    name' path' lm :
  named_model model name = inr named ->
  create_notebook_model named path (notebook_manager h) = (inr m, s') ->
  model_fields m name' path' lm ->
  finished h = false ->
  NotebookHandler._upload_notebook model path name h =
    (inr tt,
     finished_with
       (called h ["Uploading notebook to " ++ path ++ "/" ++ or_empty name]
          [create_notebook_model_ named path] s' 201)
       m name' path' lm true).
Proof.
  intros Hnamed Hc Hm Hfin. unfold NotebookHandler._upload_notebook.
  unfold named_model in Hnamed. run_step.
  destruct (name_given name); simpl; rewrite ?Hnamed; simpl;
    (injection Hnamed as <- || idtac);
    rewrite (nbm_result (create_notebook_model_ _ path) _ (inr m) s') by exact Hc;
    simpl; now rewrite (finish_model_returns m name' path' lm true).
Qed.

Lemma create_empty_notebook_returns path name (h : handler S) m s'
    name' path' lm :
  create_notebook_model (empty_model name) path (notebook_manager h) = (inr m, s') ->
  model_fields m name' path' lm ->
  finished h = false ->
  NotebookHandler._create_empty_notebook path name h =
    (inr tt,
     finished_with
       (called h ["Creating new notebook in " ++ path ++ "/" ++ or_empty name]
          [create_notebook_model_ (empty_model name) path] s' 201)
       m name' path' lm true).
Proof.
  intros Hc Hm Hfin. unfold NotebookHandler._create_empty_notebook.
  unfold empty_model in *. run_step.
  destruct (name_given name); simpl in *;
    rewrite (nbm_result (create_notebook_model_ _ path) _ (inr m) s') by exact Hc;
    simpl; now rewrite (finish_model_returns m name' path' lm true).
Qed.

Lemma save_notebook_returns model path name (h : handler S) m s'
    name' path' lm :
  save_notebook_model model name path (notebook_manager h) = (inr m, s') ->
  model_fields m name' path' lm ->
  finished h = false ->
  NotebookHandler._save_notebook model path name h =
    (inr tt,
     finished_with
       (called h ["Saving notebook at " ++ path ++ "/" ++ name]
          [save_notebook_model_ model name path] s' (status h))
       m name' path' lm
       (negb (path' =? strip_slash path)%string || negb (name' =? name)%string)).
Proof.
  intros Hc Hm Hfin. unfold NotebookHandler._save_notebook. run_step.
  rewrite (nbm_result (save_notebook_model_ model name path) _ (inr m) s') by exact Hc.
  simpl. destruct Hm as (Hn & Hp & Hl). rewrite Hp. simpl.
  destruct (negb (path' =? strip_slash path)%string); simpl;
    rewrite ?Hn; simpl;
    now rewrite (finish_model_returns m name' path' lm _) by (now repeat split).
Qed.

End Operations.

(** ** PUT and POST: which operation a request selects *)

Section Dispatch.
Context {S : Type} `{NotebookManager S} `{Imports}.

(** C4.  A POST whose URL names a notebook fails with status 400,
    whatever the body and the [copy] argument are, and the notebook
    manager is neither called nor changed. *)
Theorem post_with_name_is_rejected (path name : string) (r : request) (s : S) :
  let h := respond (NotebookHandler.post path (Some name)) r s in
  status h = 400 /\ manager_calls h = [] /\ notebook_manager h = s.
Proof.
  unfold respond, NotebookHandler.post.
  erewrite json_errors_http; cycle 1.
  - unfold NotebookHandler.post_body. run_step. reflexivity.
  - reflexivity.
  - now simpl.
Qed.

(** C2.  A PUT with a name and a non-empty [copy] argument: with a body
    that is not null it fails with status 400 and the notebook manager is
    not called; with a null body it copies [copy] to [name] in [path] and
    answers 201 with the Location and Last-Modified of the new model. *)
Theorem put_copy_excludes_body (path name : string) (r : request) (s : S) :
  nonempty (copy_argument r) = true ->
  let h := respond (NotebookHandler.put path (Some name)) r s in
  (is_None (json_body r) = false ->
   status h = 400 /\ manager_calls h = [] /\ notebook_manager h = s)
  /\
  (is_None (json_body r) = true ->
   forall m s',
     copy_notebook (copy_argument r) (Some name) path s = (inr m, s') ->
     is_model m ->
     manager_calls h = [copy_notebook_ (copy_argument r) (Some name) path] /\
     notebook_manager h = s' /\
     model_response h 201 m true).
Proof.
  intros Hcopy. unfold copy_argument in *. simpl. split.
  - intros Hbody. unfold respond, NotebookHandler.put.
    erewrite json_errors_http; cycle 1.
    + unfold NotebookHandler.put_body. run_step.
      rewrite Hcopy, Hbody. reflexivity.
    + reflexivity.
    + now simpl.
  - intros Hbody m s' Hc (n & p & lm & Hm).
    unfold respond, NotebookHandler.put.
    erewrite json_errors_returns.
    2:{ unfold NotebookHandler.put_body. run_step. rewrite Hcopy, Hbody. simpl.
        now apply (copy_notebook_returns _ path (Some name) (new_handler r s) m s' n p lm). }
    simpl. split; [reflexivity |]. split; [reflexivity |].
    now apply finished_with_response.
Qed.

(** A JSON object takes the caller's name. *)
Lemma named_model_of_dict (body : value) (name : option string) :
  is_dict body = true -> exists named, named_model body name = inr named.
Proof.
  destruct body; try discriminate. intros _.
  unfold named_model, setitem. destruct (name_given name); eauto.
Qed.

(** C1, as the code has it.  A PUT with a name, an empty [copy] argument
    and a non-empty body asks the notebook manager whether (path, name)
    exists.  If it does, the body is saved there and the status is 200.
    If it does not and the body is a JSON object, the body, named [name],
    is created (uploaded) and the response is a 201 with the Location and
    Last-Modified of the new model. *)
Theorem put_object_body_saves_or_uploads (path name : string) (r : request) (s : S)
    (found : value) (s1 : S) :
  copy_argument r = "" ->
  truthy (json_body r) = true ->
  notebook_exists name path s = (inr found, s1) ->
  let h := respond (NotebookHandler.put path (Some name)) r s in
  (truthy found = true ->
   forall m s2,
     save_notebook_model (json_body r) name path s1 = (inr m, s2) ->
     is_model m ->
     manager_calls h =
       [notebook_exists_ name path; save_notebook_model_ (json_body r) name path] /\
     log h = ["Saving notebook at " ++ path ++ "/" ++ name] /\
     notebook_manager h = s2 /\
     status h = 200)
  /\
  (truthy found = false ->
   is_dict (json_body r) = true ->
   exists named,
     named_model (json_body r) (Some name) = inr named /\
     forall m s2,
       create_notebook_model named path s1 = (inr m, s2) ->
       is_model m ->
       manager_calls h =
         [notebook_exists_ name path; create_notebook_model_ named path] /\
       log h = ["Uploading notebook to " ++ path ++ "/" ++ name] /\
       notebook_manager h = s2 /\
       model_response h 201 m true).
Proof.
  intros Hcopy Hbody Hex. unfold copy_argument in *. simpl.
  assert (Hstart :
    NotebookHandler.put_body path (Some name) (new_handler r s) =
    (if truthy found
     then NotebookHandler._save_notebook (json_body r) path name
     else NotebookHandler._upload_notebook (json_body r) path (Some name))
      (Handler r 200 ∅ [] false s1 [notebook_exists_ name path] [])).
  { unfold NotebookHandler.put_body. run_step.
    rewrite Hcopy, Hbody. simpl.
    rewrite (nbm_result (notebook_exists_ name path) _ (inr found) s1) by exact Hex.
    simpl. now destruct (truthy found). }
  split.
  - intros Hfound m s2 Hsave (n & p & lm & Hm).
    unfold respond, NotebookHandler.put.
    erewrite json_errors_returns.
    2:{ rewrite Hstart, Hfound.
        now apply (save_notebook_returns _ path name _ m s2 n p lm). }
    now simpl.
  - intros Hfound Hdict.
    destruct (named_model_of_dict _ (Some name) Hdict) as [named Hnamed].
    exists named. split; [exact Hnamed |].
    intros m s2 Hcreate (n & p & lm & Hm).
    unfold respond, NotebookHandler.put.
    erewrite json_errors_returns.
    2:{ rewrite Hstart, Hfound.
        now apply (upload_notebook_returns _ path (Some name) _ named m s2 n p lm). }
    simpl. repeat (split; [reflexivity |]).
    now apply finished_with_response.
Qed.

(** C3.  A POST without a name selects one operation, in this order: a
    non-empty [copy] argument copies that notebook, whatever the body is;
    otherwise a non-empty body is uploaded as it is, no name added;
    otherwise an empty notebook is created.  Each makes a single call to
    the notebook manager and answers 201 with the Location and
    Last-Modified of the new model. *)
Theorem post_selects_by_priority (path : string) (r : request) (s : S) :
  let h := respond (NotebookHandler.post path None) r s in
  (nonempty (copy_argument r) = true ->
   forall m s',
     copy_notebook (copy_argument r) None path s = (inr m, s') ->
     is_model m ->
     manager_calls h = [copy_notebook_ (copy_argument r) None path] /\
     notebook_manager h = s' /\
     model_response h 201 m true)
  /\
  (nonempty (copy_argument r) = false ->
   truthy (json_body r) = true ->
   forall m s',
     create_notebook_model (json_body r) path s = (inr m, s') ->
     is_model m ->
     manager_calls h = [create_notebook_model_ (json_body r) path] /\
     log h = ["Uploading notebook to " ++ path ++ "/"] /\
     notebook_manager h = s' /\
     model_response h 201 m true)
  /\
  (nonempty (copy_argument r) = false ->
   truthy (json_body r) = false ->
   forall m s',
     create_notebook_model (VDict []) path s = (inr m, s') ->
     is_model m ->
     manager_calls h = [create_notebook_model_ (VDict []) path] /\
     log h = ["Creating new notebook in " ++ path ++ "/"] /\
     notebook_manager h = s' /\
     model_response h 201 m true).
Proof.
  unfold copy_argument. simpl. split; [| split].
  - intros Hcopy m s' Hc (n & p & lm & Hm).
    unfold respond, NotebookHandler.post.
    erewrite json_errors_returns.
    2:{ unfold NotebookHandler.post_body. run_step. rewrite Hcopy.
        now apply (copy_notebook_returns _ path None (new_handler r s) m s' n p lm). }
    simpl. repeat (split; [reflexivity |]).
    now apply finished_with_response.
  - intros Hcopy Hbody m s' Hc (n & p & lm & Hm).
    unfold respond, NotebookHandler.post.
    erewrite json_errors_returns.
    2:{ unfold NotebookHandler.post_body. run_step. rewrite Hcopy, Hbody.
        now apply (upload_notebook_returns _ path None (new_handler r s)
                     (json_body r) m s' n p lm). }
    simpl. repeat (split; [reflexivity |]).
    now apply finished_with_response.
  - intros Hcopy Hbody m s' Hc (n & p & lm & Hm).
    unfold respond, NotebookHandler.post.
    erewrite json_errors_returns.
    2:{ unfold NotebookHandler.post_body. run_step. rewrite Hcopy, Hbody.
        now apply (create_empty_notebook_returns path None (new_handler r s)
                     m s' n p lm). }
    simpl. repeat (split; [reflexivity |]).
    now apply finished_with_response.
Qed.

(** The outcome of creating an empty notebook does not depend on the
    body of the request. *)
Lemma finish_model_ignores_body m location r body st hd wr fin (mgr : S) cs lg :
  NotebookHandler._finish_model m location
    (Handler (with_body r body) st hd wr fin mgr cs lg) =
  (fst (NotebookHandler._finish_model m location (Handler r st hd wr fin mgr cs lg)),
   rebody body
     (snd (NotebookHandler._finish_model m location (Handler r st hd wr fin mgr cs lg)))).
Proof.
  unfold NotebookHandler._finish_model, NotebookHandler.notebook_location, finish,
    rebody.
  run_step.
  destruct location; simpl; split_fields; reflexivity.
Qed.

Lemma create_empty_ignores_body path name r body (s : S) :
  outcome (snd (json_errors (NotebookHandler._create_empty_notebook path name)
                  (new_handler (with_body r body) s))) =
  outcome (snd (json_errors (NotebookHandler._create_empty_notebook path name)
                  (new_handler r s))).
Proof.
  unfold json_errors, NotebookHandler._create_empty_notebook, nbm, new_handler.
  run_step.
  destruct (name_given name); simpl;
    destruct (create_notebook_model _ path s) as [[e | m] s']; simpl;
    try (destruct e as [code [msg |] | | | | |]; reflexivity);
    rewrite finish_model_ignores_body;
    destruct (NotebookHandler._finish_model m true _) as [[e | []] h']; simpl;
    try (destruct e as [code [msg |] | | | | |]; unfold finish; simpl;
         destruct (finished h'); reflexivity);
    reflexivity.
Qed.

(** C10.  The two branches of PUT test the body differently.  With a
    non-empty [copy] argument an empty object body is a body, and the
    request fails with status 400; without it an empty object body counts
    as no body: the outcome is that of the same request with a null body,
    an empty notebook named [name] is created, and the response is a 201. *)
Theorem put_empty_object_body (path name : string) (r : request) (s : S) :
  json_body r = VDict [] ->
  let h := respond (NotebookHandler.put path (Some name)) r s in
  (nonempty (copy_argument r) = true ->
   status h = 400 /\ manager_calls h = [] /\ notebook_manager h = s)
  /\
  (nonempty (copy_argument r) = false ->
   outcome h =
     outcome (respond (NotebookHandler.put path (Some name)) (with_body r VNone) s) /\
   forall m s',
     create_notebook_model (empty_model (Some name)) path s = (inr m, s') ->
     is_model m ->
     manager_calls h = [create_notebook_model_ (empty_model (Some name)) path] /\
     log h = ["Creating new notebook in " ++ path ++ "/" ++ name] /\
     notebook_manager h = s' /\
     model_response h 201 m true).
Proof.
  intros Hbody. unfold copy_argument. simpl.
  assert (Hrun : nonempty (default "" (arguments r !! "copy")) = false ->
    forall body, truthy body = false ->
    NotebookHandler.put_body path (Some name) (new_handler (with_body r body) s) =
    NotebookHandler._create_empty_notebook path (Some name)
      (new_handler (with_body r body) s)).
  { intros Hcopy body Hfalse. unfold NotebookHandler.put_body. run_step.
    now rewrite Hcopy, Hfalse. }
  assert (Hr : with_body r (VDict []) = r).
  { rewrite <- Hbody. now destruct r. }
  split.
  - intros Hcopy. unfold respond, NotebookHandler.put.
    erewrite json_errors_http; cycle 1.
    + unfold NotebookHandler.put_body. run_step.
      rewrite Hcopy, Hbody. reflexivity.
    + reflexivity.
    + now simpl.
  - intros Hcopy. split.
    + unfold respond, NotebookHandler.put, json_errors.
      rewrite <- Hr at 1.
      rewrite !Hrun by (assumption || reflexivity).
      fold (json_errors (NotebookHandler._create_empty_notebook path (Some name))
              (new_handler (with_body r (VDict [])) s)).
      fold (json_errors (NotebookHandler._create_empty_notebook path (Some name))
              (new_handler (with_body r VNone) s)).
      now rewrite !create_empty_ignores_body.
    + intros m s' Hc (n & p & lm & Hm).
      unfold respond, NotebookHandler.put.
      erewrite json_errors_returns.
      2:{ rewrite <- Hr at 1. rewrite Hrun by (assumption || reflexivity).
          rewrite Hr.
          now apply (create_empty_notebook_returns path (Some name)
                       (new_handler r s) m s' n p lm). }
      simpl. repeat (split; [reflexivity |]).
      now apply finished_with_response.
Qed.

End Dispatch.

(** ** PATCH, Save and DELETE *)

Section Documents.
Context {S : Type} `{NotebookManager S} `{Imports}.

(** C5.  A PATCH without a name fails with status 400 (the name is
    missing); with a name and a null body it fails with status 400 (the
    body is missing); otherwise the body is handed to the manager's update
    and the response is a 200 whose Location is the URL of the returned
    model's path and name, with its Last-Modified. *)
Theorem patch_renames (path : string) (name : option string) (r : request) (s : S) :
  let h := respond (NotebookHandler.patch path name) r s in
  (name = None ->
   status h = 400 /\ manager_calls h = [] /\ notebook_manager h = s /\
   written h = [json_dumps (VDict [("message", VStr "Notebook name missing")])])
  /\
  (forall n, name = Some n -> is_None (json_body r) = true ->
   status h = 400 /\ manager_calls h = [] /\ notebook_manager h = s /\
   written h = [json_dumps (VDict [("message", VStr "JSON body missing")])])
  /\
  (forall n, name = Some n -> is_None (json_body r) = false ->
   forall m s',
     update_notebook_model (json_body r) n path s = (inr m, s') ->
     is_model m ->
     manager_calls h = [update_notebook_model_ (json_body r) n path] /\
     notebook_manager h = s' /\
     model_response h 200 m true).
Proof.
  simpl. split; [| split].
  - intros ->. unfold respond, NotebookHandler.patch.
    erewrite json_errors_http; cycle 1.
    + unfold NotebookHandler.patch_body. run_step. reflexivity.
    + reflexivity.
    + now simpl.
  - intros n -> Hbody. unfold respond, NotebookHandler.patch.
    erewrite json_errors_http; cycle 1.
    + unfold NotebookHandler.patch_body. run_step. rewrite Hbody. reflexivity.
    + reflexivity.
    + now simpl.
  - intros n -> Hbody m s' Hc (n' & p' & lm & Hm).
    unfold respond, NotebookHandler.patch.
    erewrite json_errors_returns.
    2:{ unfold NotebookHandler.patch_body. run_step. rewrite Hbody.
        rewrite (nbm_result (update_notebook_model_ _ n path) _ (inr m) s') by exact Hc.
        simpl. now apply (finish_model_returns m n' p' lm true). }
    simpl. repeat (split; [reflexivity |]).
    exists n', p', lm. simpl. split; [exact Hm |]. split; [reflexivity |].
    split; [apply lookup_insert_eq |].
    split; [| reflexivity].
    rewrite lookup_insert_ne by discriminate. apply lookup_insert_eq.
Qed.


(** C9, on the code.  DELETE does not look at the name: without one it
    calls the manager's delete with [None], and the status is whatever
    that call makes it: 204 when it returns, the manager's own status
    when it raises an [HTTPError], 500 otherwise. *)
Theorem delete_without_name_reaches_manager (path : string) (r : request) (s : S) :
  let h := respond (NotebookHandler.delete path None) r s in
  manager_calls h = [delete_notebook_model_ None path] /\
  notebook_manager h = snd (delete_notebook_model None path s) /\
  status h =
    match fst (delete_notebook_model None path s) with
    | inr _ => 204
    | inl (HTTPError code _) => code
    | inl _ => 500
    end.
Proof.
  unfold respond, NotebookHandler.delete, NotebookHandler.delete_body,
    json_errors, nbm, finish.
  run_step.
  destruct (delete_notebook_model None path s) as [[e | v] s']; simpl.
  - destruct e as [code [msg |] | | | | |]; now simpl.
  - now simpl.
Qed.

End Documents.

(** ** Checkpoints *)

Section Checkpoints.
Context {S : Type} `{NotebookManager S} `{Imports}.

(** C7, as the code has it.  When the manager creates the checkpoint, the
    response to a POST on the checkpoints of a notebook is a 201 whose
    Location joins the base URL, ['api/notebooks'], the path, the name,
    ['checkpoints'] and the checkpoint's id, and whose body is the encoded
    checkpoint; no Last-Modified header is set. *)
Theorem create_checkpoint_response (path name : string) (r : request) (s : S)
    (checkpoint : value) (s' : S) (checkpoint_id : string) :
  create_checkpoint name path s = (inr checkpoint, s') ->
  getitem checkpoint "id" = inr (VStr checkpoint_id) ->
  let h := respond (NotebookCheckpointsHandler.post path name) r s in
  status h = 201 /\
  headers h !! "Location" =
    Some (VStr (url_path_join
                  [base_project_url r; "api/notebooks"; path; name;
                   "checkpoints"; checkpoint_id])) /\
  headers h !! "Last-Modified" = None /\
  written h = [json_dumps checkpoint] /\
  manager_calls h = [create_checkpoint_ name path] /\
  notebook_manager h = s'.
Proof.
  intros Hc Hid. simpl.
  unfold respond, NotebookCheckpointsHandler.post.
  erewrite json_errors_returns.
  2:{ unfold NotebookCheckpointsHandler.post_body. run_step.
      rewrite (nbm_result (create_checkpoint_ name path) _ (inr checkpoint) s')
        by exact Hc.
      simpl. rewrite Hid. simpl. unfold finish. simpl. reflexivity. }
  simpl. split; [reflexivity |]. split; [apply lookup_insert_eq |].
  split; [| now repeat split].
  rewrite lookup_insert_ne by discriminate. apply lookup_empty.
Qed.

End Checkpoints.

(** ** Last-Modified on the responses that return *)

Section LastModified.
Context {S : Type} `{NotebookManager S} `{Imports}.

Lemma finish_model_sets_last_modified m location (h h' : handler S) :
  NotebookHandler._finish_model m location h = (inr tt, h') ->
  is_Some (headers h' !! "Last-Modified").
Proof.
  unfold NotebookHandler._finish_model, NotebookHandler.notebook_location, finish.
  run_step.
  destruct location; simpl; split_fields; try discriminate;
    destruct (finished h); intros [= <-]; simpl;
    rewrite lookup_insert_eq; eauto.
Qed.

Lemma copy_sets_last_modified copy_from path copy_to (h h' : handler S) :
  NotebookHandler._copy_notebook copy_from path copy_to h = (inr tt, h') ->
  is_Some (headers h' !! "Last-Modified").
Proof.
  unfold NotebookHandler._copy_notebook. intros Hrun.
  do 3 invert_bind Hrun. eauto using finish_model_sets_last_modified.
Qed.

Lemma upload_sets_last_modified model path name (h h' : handler S) :
  NotebookHandler._upload_notebook model path name h = (inr tt, h') ->
  is_Some (headers h' !! "Last-Modified").
Proof.
  unfold NotebookHandler._upload_notebook. intros Hrun.
  do 4 invert_bind Hrun. eauto using finish_model_sets_last_modified.
Qed.

Lemma create_empty_sets_last_modified path name (h h' : handler S) :
  NotebookHandler._create_empty_notebook path name h = (inr tt, h') ->
  is_Some (headers h' !! "Last-Modified").
Proof.
  unfold NotebookHandler._create_empty_notebook. intros Hrun.
  do 4 invert_bind Hrun. eauto using finish_model_sets_last_modified.
Qed.

Lemma save_sets_last_modified model path name (h h' : handler S) :
  NotebookHandler._save_notebook model path name h = (inr tt, h') ->
  is_Some (headers h' !! "Last-Modified").
Proof.
  unfold NotebookHandler._save_notebook. intros Hrun.
  do 4 invert_bind Hrun. eauto using finish_model_sets_last_modified.
Qed.

Lemma patch_sets_last_modified path name (h h' : handler S) :
  NotebookHandler.patch_body path name h = (inr tt, h') ->
  is_Some (headers h' !! "Last-Modified").
Proof.
  unfold NotebookHandler.patch_body. intros Hrun.
  destruct name as [n |]; [| discriminate].
  invert_bind Hrun.
  destruct (is_None _); [discriminate |].
  invert_bind Hrun. eauto using finish_model_sets_last_modified.
Qed.

Lemma post_sets_last_modified path name (h h' : handler S) :
  NotebookHandler.post_body path name h = (inr tt, h') ->
  is_Some (headers h' !! "Last-Modified").
Proof.
  unfold NotebookHandler.post_body. intros Hrun.
  do 2 invert_bind Hrun.
  destruct name as [n |]; [discriminate |].
  destruct (nonempty _); [eauto using copy_sets_last_modified |].
  destruct (truthy _);
    eauto using upload_sets_last_modified, create_empty_sets_last_modified.
Qed.

Lemma put_sets_last_modified path name (h h' : handler S) :
  NotebookHandler.put_body path name h = (inr tt, h') ->
  is_Some (headers h' !! "Last-Modified").
Proof.
  unfold NotebookHandler.put_body. intros Hrun.
  destruct name as [n |]; [| discriminate].
  do 2 invert_bind Hrun.
  destruct (nonempty _).
  - invert_bind Hrun. eauto using copy_sets_last_modified.
  - destruct (truthy _); [| eauto using create_empty_sets_last_modified].
    invert_bind Hrun.
    destruct (truthy _);
      eauto using save_sets_last_modified, upload_sets_last_modified.
Qed.

(** C8, as the code has it.  Every PATCH, POST or PUT on a notebook that
    returns, that is every Rename, Copy, Upload, CreateEmpty and Save that
    succeeds, has set a Last-Modified header.  A DELETE that returns
    answers 204 with no header and no body. *)
Theorem mutations_set_last_modified (path : string) (name : option string)
    (r : request) (s : S) :
  (forall h,
     NotebookHandler.patch_body path name (new_handler r s) = (inr tt, h) \/
     NotebookHandler.post_body path name (new_handler r s) = (inr tt, h) \/
     NotebookHandler.put_body path name (new_handler r s) = (inr tt, h) ->
     is_Some (headers h !! "Last-Modified"))
  /\
  (forall h,
     NotebookHandler.delete_body path name (new_handler r s) = (inr tt, h) ->
     status h = 204 /\ headers h = ∅ /\ written h = [] /\
     h = respond (NotebookHandler.delete path name) r s).
Proof.
  split.
  - intros h [Hrun | [Hrun | Hrun]];
      eauto using patch_sets_last_modified, post_sets_last_modified,
        put_sets_last_modified.
  - intros h Hrun. unfold respond, NotebookHandler.delete.
    rewrite (json_errors_returns _ _ _ Hrun). simpl.
    revert Hrun. unfold NotebookHandler.delete_body, nbm, finish. run_step.
    destruct (delete_notebook_model name path s) as [[e | v] s']; simpl.
    + discriminate.
    + intros [= <-]. now simpl.
Qed.

End LastModified.

(** ** The handlers on the in-memory manager *)

Import Example.

Lemma put_object_body_saves_or_uploads_witness :
  status (respond (NotebookHandler.put "/work" (Some "a.ipynb"))
            (request_with some_body None) one_notebook) = 200 /\
  model_response
    (respond (NotebookHandler.put "/work" (Some "b.ipynb"))
       (request_with some_body None) one_notebook)
    201 (model "b.ipynb" "work" 7) true.
Proof.
  split.
  - pose proof (put_object_body_saves_or_uploads "/work" "a.ipynb"
                  (request_with some_body None) one_notebook (VBool true) one_notebook
                  eq_refl eq_refl eq_refl) as [Hsave _].
    apply (Hsave eq_refl (model "a.ipynb" "work" 7)
             (Store [("work", "a.ipynb")] 8) eq_refl).
    exists "a.ipynb", "work", (VDate 7). now repeat split.
  - pose proof (put_object_body_saves_or_uploads "/work" "b.ipynb"
                  (request_with some_body None) one_notebook (VBool false) one_notebook
                  eq_refl eq_refl eq_refl) as [_ Hupload].
    destruct (Hupload eq_refl eq_refl) as (named & Hnamed & Hcreate).
    injection Hnamed as <-.
    apply (Hcreate (model "b.ipynb" "work" 7)
             (Store [("work", "b.ipynb"); ("work", "a.ipynb")] 8) eq_refl).
    exists "b.ipynb", "work", (VDate 7). now repeat split.
Defined.

(** C1 as stated fails for a body that is not an object: [PUT
    /api/notebooks/work/b.ipynb] with the body [[1]], where [work/b.ipynb]
    does not exist.  The body is not empty, the name cannot be stored in a
    list, the method raises [TypeError] after the existence check, and the
    answer is an error with no Location, not a 201. *)
Lemma put_list_body_counterexample :
  let r := request_with (VList [VInt 1]) None in
  let h := respond (NotebookHandler.put "/work" (Some "b.ipynb")) r one_notebook in
  copy_argument r = "" /\
  truthy (json_body r) = true /\
  notebook_exists "b.ipynb" "/work" one_notebook = (inr (VBool false), one_notebook) /\
  fst (NotebookHandler.put_body "/work" (Some "b.ipynb") (new_handler r one_notebook))
    = inl TypeError /\
  manager_calls h = [notebook_exists_ "b.ipynb" "/work"] /\
  status h = 500 /\
  headers h !! "Location" = None.
Proof.
  simpl. repeat split; reflexivity.
Qed.

Lemma put_copy_excludes_body_witness :
  status (respond (NotebookHandler.put "/work" (Some "b.ipynb"))
            (request_with some_body (Some "a.ipynb")) one_notebook) = 400 /\
  model_response
    (respond (NotebookHandler.put "/work" (Some "b.ipynb"))
       (request_with VNone (Some "a.ipynb")) one_notebook)
    201 (model "b.ipynb" "work" 7) true.
Proof.
  split.
  - pose proof (put_copy_excludes_body "/work" "b.ipynb"
                  (request_with some_body (Some "a.ipynb")) one_notebook eq_refl)
      as [Hbody _].
    apply (Hbody eq_refl).
  - pose proof (put_copy_excludes_body "/work" "b.ipynb"
                  (request_with VNone (Some "a.ipynb")) one_notebook eq_refl)
      as [_ Hcopy].
    apply (Hcopy eq_refl (model "b.ipynb" "work" 7)
             (Store [("work", "b.ipynb"); ("work", "a.ipynb")] 8) eq_refl).
    exists "b.ipynb", "work", (VDate 7). now repeat split.
Defined.

Lemma post_selects_by_priority_witness :
  manager_calls (respond (NotebookHandler.post "/work" None)
                   (request_with some_body (Some "a.ipynb")) one_notebook)
    = [copy_notebook_ "a.ipynb" None "/work"] /\
  manager_calls (respond (NotebookHandler.post "/work" None)
                   (request_with some_body None) one_notebook)
    = [create_notebook_model_ some_body "/work"] /\
  model_response
    (respond (NotebookHandler.post "/work" None) (request_with VNone None) one_notebook)
    201 (model "Untitled0.ipynb" "work" 7) true.
Proof.
  split; [| split].
  - pose proof (post_selects_by_priority "/work"
                  (request_with some_body (Some "a.ipynb")) one_notebook)
      as (Hcopy & _ & _).
    apply (Hcopy eq_refl (model "Copy-a.ipynb" "work" 7)
             (Store [("work", "Copy-a.ipynb"); ("work", "a.ipynb")] 8) eq_refl).
    exists "Copy-a.ipynb", "work", (VDate 7). now repeat split.
  - pose proof (post_selects_by_priority "/work"
                  (request_with some_body None) one_notebook)
      as (_ & Hupload & _).
    apply (Hupload eq_refl eq_refl (model "Untitled0.ipynb" "work" 7)
             (Store [("work", "Untitled0.ipynb"); ("work", "a.ipynb")] 8) eq_refl).
    exists "Untitled0.ipynb", "work", (VDate 7). now repeat split.
  - pose proof (post_selects_by_priority "/work"
                  (request_with VNone None) one_notebook)
      as (_ & _ & Hempty).
    apply (Hempty eq_refl eq_refl (model "Untitled0.ipynb" "work" 7)
             (Store [("work", "Untitled0.ipynb"); ("work", "a.ipynb")] 8) eq_refl).
    exists "Untitled0.ipynb", "work", (VDate 7). now repeat split.
Defined.

Lemma patch_renames_witness :
  status (respond (NotebookHandler.patch "/work" None)
            (request_with some_body None) one_notebook) = 400 /\
  status (respond (NotebookHandler.patch "/work" (Some "a.ipynb"))
            (request_with VNone None) one_notebook) = 400 /\
  model_response
    (respond (NotebookHandler.patch "/work" (Some "a.ipynb"))
       (request_with (VDict [("name", VStr "c.ipynb")]) None) one_notebook)
    200 (model "c.ipynb" "work" 7) true.
Proof.
  split; [| split].
  - pose proof (patch_renames "/work" None (request_with some_body None) one_notebook)
      as (Hname & _ & _).
    apply (Hname eq_refl).
  - pose proof (patch_renames "/work" (Some "a.ipynb")
                  (request_with VNone None) one_notebook)
      as (_ & Hbody & _).
    apply (Hbody "a.ipynb" eq_refl eq_refl).
  - pose proof (patch_renames "/work" (Some "a.ipynb")
                  (request_with (VDict [("name", VStr "c.ipynb")]) None) one_notebook)
      as (_ & _ & Hrename).
    apply (Hrename "a.ipynb" eq_refl eq_refl (model "c.ipynb" "work" 7)
             (Store [("work", "c.ipynb")] 8) eq_refl).
    exists "c.ipynb", "work", (VDate 7). now repeat split.
Defined.

Lemma put_empty_object_body_witness :
  status (respond (NotebookHandler.put "/work" (Some "b.ipynb"))
            (request_with (VDict []) (Some "a.ipynb")) one_notebook) = 400 /\
  model_response
    (respond (NotebookHandler.put "/work" (Some "b.ipynb"))
       (request_with (VDict []) None) one_notebook)
    201 (model "b.ipynb" "work" 7) true.
Proof.
  split.
  - pose proof (put_empty_object_body "/work" "b.ipynb"
                  (request_with (VDict []) (Some "a.ipynb")) one_notebook eq_refl)
      as [Hcopy _].
    apply (Hcopy eq_refl).
  - pose proof (put_empty_object_body "/work" "b.ipynb"
                  (request_with (VDict []) None) one_notebook eq_refl)
      as [_ Hempty].
    destruct (Hempty eq_refl) as [_ Hcreate].
    apply (Hcreate (model "b.ipynb" "work" 7)
             (Store [("work", "b.ipynb"); ("work", "a.ipynb")] 8) eq_refl).
    exists "b.ipynb", "work", (VDate 7). now repeat split.
Defined.



Lemma create_checkpoint_response_witness :
  headers (respond (NotebookCheckpointsHandler.post "/work" "a.ipynb")
             (request_with VNone None) one_notebook) !! "Location"
    = Some (VStr "/api/notebooks/work/a.ipynb/checkpoints/checkpoint").
Proof.
  apply (@create_checkpoint_response store manager imports
           "/work" "a.ipynb" (request_with VNone None)
           one_notebook (checkpoint one_notebook) one_notebook "checkpoint"
           eq_refl eq_refl).
Defined.

(** C7 as stated fails: the checkpoint has a timestamp, and the 201
    response carries no Last-Modified header. *)
Lemma create_checkpoint_last_modified_counterexample :
  let h := respond (NotebookCheckpointsHandler.post "/work" "a.ipynb")
             (request_with VNone None) one_notebook in
  fst (create_checkpoint "a.ipynb" "/work" one_notebook)
    = inr (VDict [("id", VStr "checkpoint"); ("last_modified", VDate 7)]) /\
  status h = 201 /\
  headers h !! "Last-Modified" = None.
Proof.
  simpl. repeat split; reflexivity.
Qed.

Lemma mutations_set_last_modified_witness :
  is_Some (headers (respond (NotebookHandler.put "/work" (Some "a.ipynb"))
                      (request_with some_body None) one_notebook)
             !! "Last-Modified") /\
  status (respond (NotebookHandler.delete "/work" (Some "a.ipynb"))
            (request_with VNone None) one_notebook) = 204.
Proof.
  split.
  - pose proof (mutations_set_last_modified "/work" (Some "a.ipynb")
                  (request_with some_body None) one_notebook) as [Hset _].
    apply Hset. right. right. reflexivity.
  - pose proof (mutations_set_last_modified "/work" (Some "a.ipynb")
                  (request_with VNone None) one_notebook) as [_ Hdelete].
    destruct (Hdelete _ eq_refl) as (_ & _ & _ & <-). reflexivity.
Defined.

(** C8 as stated fails for Delete: deleting [work/a.ipynb] succeeds with
    status 204 and no Last-Modified header. *)
Lemma delete_last_modified_counterexample :
  let h := respond (NotebookHandler.delete "/work" (Some "a.ipynb"))
             (request_with VNone None) one_notebook in
  NotebookHandler.delete_body "/work" (Some "a.ipynb")
    (new_handler (request_with VNone None) one_notebook) = (inr tt, h) /\
  status h = 204 /\
  notebooks (notebook_manager h) = [] /\
  headers h !! "Last-Modified" = None.
Proof.
  simpl. repeat split; reflexivity.
Qed.

(** C9 on the in-memory manager: [DELETE /api/notebooks/work] hands [None]
    to the manager, which knows no such notebook; the status is its 404,
    not 400. *)
Lemma delete_without_name_example :
  let h := respond (NotebookHandler.delete "/work" None)
             (request_with VNone None) one_notebook in
  manager_calls h = [delete_notebook_model_ None "/work"] /\ status h = 404.
Proof.
  simpl. split; reflexivity.
Qed.

(** ** Disciplines every method keeps *)

(** A primitive, run: what it returns and the handler it leaves. *)
Ltac run_leaf Hrun :=
  unfold nbm, finish, set_status, set_header, log_info, get_json_body,
    get_argument, get_base_project_url, as_str, lift, ret, raise in Hrun;
  repeat match type of Hrun with
         | context [match ?x with _ => _ end] => destruct x
         end;
  inversion Hrun; subst; clear Hrun.

Ltac leaf :=
  let Hrun := fresh "Hrun" in
  intros ? ? ? Hrun; run_leaf Hrun;
  unfold same_manager, same_output, same_other_headers, same_location, same_headers;
  simpl; repeat split; intros;
  rewrite ?lookup_insert_ne by congruence; reflexivity.

Section Discipline.
Context {S : Type} `{NotebookManager S} `{Imports}.

Lemma keeps_bind {A B : Type} (R : handler S -> handler S -> Prop)
    (m : M S A) (k : A -> M S B) :
  (forall a b c, R a b -> R b c -> R a c) ->
  keeps R m -> (forall a, keeps R (k a)) -> keeps R (bind m k).
Proof.
  intros Htrans Hm Hk h r h'. unfold bind.
  destruct (m h) as [[e | a] h1] eqn:Hmh.
  - intros [= <- <-]. eapply Hm; eassumption.
  - intros Hrun. eapply Htrans; [eapply Hm | eapply Hk]; eassumption.
Qed.

Lemma same_manager_trans (a b c : handler S) :
  same_manager a b -> same_manager b c -> same_manager a c.
Proof. unfold same_manager. intros [-> ->] [-> ->]. now split. Qed.

Lemma same_output_trans (a b c : handler S) :
  same_output a b -> same_output b c -> same_output a c.
Proof. unfold same_output. intros [<- <-] [<- <-]. now split. Qed.

Lemma same_other_headers_trans (a b c : handler S) :
  same_other_headers a b -> same_other_headers b c -> same_other_headers a c.
Proof.
  unfold same_other_headers. intros [Hr1 Hk1] [Hr2 Hk2]. split.
  - congruence.
  - intros k Hl Hm. rewrite Hk2, Hk1 by assumption. reflexivity.
Qed.

Lemma same_location_trans (a b c : handler S) :
  same_location a b -> same_location b c -> same_location a c.
Proof. unfold same_location. congruence. Qed.

Lemma same_headers_trans (a b c : handler S) :
  same_headers a b -> same_headers b c -> same_headers a c.
Proof. unfold same_headers. congruence. Qed.

Lemma finishes_bind {A : Type} (m : M S A) (k : A -> M S unit) :
  keeps same_output m -> (forall a, finishes (k a)) -> finishes (bind m k).
Proof.
  intros Hm Hk h r h' Hfin. unfold bind.
  destruct (m h) as [[e | a] h1] eqn:Hmh.
  - intros [= <- <-]. destruct (Hm _ _ _ Hmh) as [Hf Hw]. split; congruence.
  - intros Hrun. destruct (Hm _ _ _ Hmh) as [Hf Hw].
    assert (Hfin1 : finished h1 = false) by congruence.
    specialize (Hk a h1 r h' Hfin1 Hrun).
    destruct r as [e | u]; [| exact Hk].
    destruct Hk as [Hf' Hw']. split; congruence.
Qed.

Lemma finishes_finish (chunk : option string) : finishes (S := S) (finish chunk).
Proof.
  intros h r h' Hfin. unfold finish. rewrite Hfin. intros [= <- <-]. reflexivity.
Qed.

Lemma finishes_raise (e : exn) : finishes (S := S) (raise e).
Proof. intros h r h' Hfin [= <- <-]. now split. Qed.

Lemma calls_none {A : Type} (n : nat) (m : M S A) :
  keeps same_manager m -> calls_at_most n m.
Proof.
  intros Hm h r h' Hrun. destruct (Hm _ _ _ Hrun) as [Hc _].
  exists []. rewrite app_nil_r. split; [exact Hc | simpl; lia].
Qed.

Lemma calls_bind_quiet {A B : Type} (n : nat) (m : M S A) (k : A -> M S B) :
  keeps same_manager m -> (forall a, calls_at_most n (k a)) ->
  calls_at_most n (bind m k).
Proof.
  intros Hm Hk h r h'. unfold bind.
  destruct (m h) as [[e | a] h1] eqn:Hmh.
  - intros [= <- <-]. eapply (calls_none n m Hm); eassumption.
  - intros Hrun. destruct (Hm _ _ _ Hmh) as [Hc _].
    destruct (Hk a _ _ _ Hrun) as (cs & Hcs & Hlen).
    exists cs. split; [congruence | exact Hlen].
Qed.

Lemma calls_bind_nbm {B : Type} (n : nat) (c : call) (k : value -> M S B) :
  (forall a, calls_at_most n (k a)) -> calls_at_most (Datatypes.S n) (bind (nbm c) k).
Proof.
  intros Hk h r h'. unfold bind, nbm.
  destruct (invoke c (notebook_manager h)) as [[e | a] s1].
  - intros [= <- <-]. exists [c]. simpl. split; [reflexivity | lia].
  - intros Hrun. destruct (Hk a _ _ _ Hrun) as (cs & Hcs & Hlen).
    exists (c :: cs). simpl in *. rewrite Hcs, <- app_assoc. simpl.
    split; [reflexivity | lia].
Qed.

End Discipline.

(** [keeps R m] for a method written out in primitives; [tr] proves the
    transitivity of [R]. *)
Ltac keeps_tac tr :=
  lazymatch goal with
  | |- keeps _ (bind _ _) =>
      apply keeps_bind;
      [intros ? ? ?; tr | keeps_tac tr | intros ?; cbv beta; keeps_tac tr]
  | |- keeps _ (match ?x with _ => _ end) => destruct x; keeps_tac tr
  | |- _ => leaf
  end.

Ltac finishes_tac :=
  lazymatch goal with
  | |- finishes (bind _ _) =>
      apply finishes_bind;
      [keeps_tac ltac:(apply same_output_trans) | intros ?; cbv beta; finishes_tac]
  | |- finishes (match ?x with _ => _ end) => destruct x; finishes_tac
  | |- finishes (finish _) => apply finishes_finish
  | |- finishes (raise _) => apply finishes_raise
  end.

Ltac calls_tac :=
  lazymatch goal with
  | |- calls_at_most _ (bind (nbm _) _) =>
      apply calls_bind_nbm; intros ?; cbv beta; calls_tac
  | |- calls_at_most _ (bind _ _) =>
      apply calls_bind_quiet;
      [keeps_tac ltac:(apply same_manager_trans) | intros ?; cbv beta; calls_tac]
  | |- calls_at_most _ (match ?x with _ => _ end) => destruct x; calls_tac
  | |- _ => apply calls_none; keeps_tac ltac:(apply same_manager_trans)
  end.

Ltac unfold_methods :=
  unfold body_of,
    NotebookHandler.get_body, NotebookHandler.patch_body, NotebookHandler.post_body,
    NotebookHandler.put_body, NotebookHandler.delete_body,
    NotebookCheckpointsHandler.get_body, NotebookCheckpointsHandler.post_body,
    ModifyNotebookCheckpointsHandler.post_body,
    ModifyNotebookCheckpointsHandler.delete_body,
    NotebookHandler._copy_notebook, NotebookHandler._upload_notebook,
    NotebookHandler._create_empty_notebook, NotebookHandler._save_notebook,
    NotebookHandler._finish_model, NotebookHandler.notebook_location.

Section Bodies.
Context {S : Type} `{NotebookManager S} `{Imports}.

(** X1.  Whatever the manager does, a method either returns with the
    response finished, or raises before anything was written or finished. *)
Theorem bodies_finish_or_raise_unwritten (e : endpoint) (h h' : handler S)
    (r : exn + unit) :
  finished h = false ->
  body_of e h = (r, h') ->
  match r with
  | inr _ => finished h' = true
  | inl _ => finished h' = false /\ written h' = written h
  end.
Proof.
  revert h r h'. change (finishes (body_of e)).
  destruct e; unfold_methods; finishes_tac.
Qed.

(** X2.  No method touches the request or any header other than Location
    and Last-Modified. *)
Theorem bodies_touch_only_two_headers (e : endpoint) (h h' : handler S)
    (r : exn + unit) :
  body_of e h = (r, h') ->
  req h' = req h /\
  forall k : string,
    k <> "Location" -> k <> "Last-Modified" -> headers h' !! k = headers h !! k.
Proof.
  revert h r h'. change (keeps same_other_headers (body_of e)).
  destruct e; unfold_methods; keeps_tac ltac:(apply same_other_headers_trans).
Qed.

(** X3.  A request makes at most one call to the notebook manager, and a
    PUT at most two; the calls are added to those made before. *)
Theorem bodies_call_manager_at_most (e : endpoint) (h h' : handler S)
    (r : exn + unit) :
  body_of e h = (r, h') ->
  exists cs : list call,
    manager_calls h' = (manager_calls h ++ cs)%list /\
    (length cs <= call_budget e)%nat.
Proof.
  revert h r h'. change (calls_at_most (call_budget e) (body_of e)).
  destruct e; unfold_methods; simpl call_budget; calls_tac.
Qed.

End Bodies.

(** ** GET, and what a model must hold *)

Section Reading.
Context {S : Type} `{NotebookManager S} `{Imports}.

Lemma finish_model_keeps_manager (m : value) (location : bool) :
  keeps (S := S) same_manager (NotebookHandler._finish_model m location).
Proof. unfold_methods. keeps_tac ltac:(apply same_manager_trans). Qed.

Lemma finish_model_keeps_location (m : value) :
  keeps (S := S) same_location (NotebookHandler._finish_model m false).
Proof. unfold_methods. keeps_tac ltac:(apply same_location_trans). Qed.

(** X4.  GET is read-only: whatever the manager answers, it makes exactly
    one call, [list_notebooks] for a directory and [get_notebook_model] for
    a notebook, and it never sets a Location header; listing a directory
    sets no header at all. *)
Theorem get_is_read_only (path : string) (name : option string)
    (h h' : handler S) (r : exn + unit) :
  NotebookHandler.get_body path name h = (r, h') ->
  manager_calls h' = (manager_calls h ++ [get_call path name])%list /\
  headers h' !! "Location" = headers h !! "Location" /\
  (name = None -> headers h' = headers h).
Proof.
  unfold NotebookHandler.get_body, get_call.
  destruct name as [n |]; unfold bind, nbm;
    destruct (invoke _ (notebook_manager h)) as [[e | v] s1]; simpl;
    try (intros [= <- <-]; simpl; repeat split; (reflexivity || discriminate)).
  - intros Hrun.
    destruct (finish_model_keeps_manager _ _ _ _ _ Hrun) as [Hc _].
    pose proof (finish_model_keeps_location _ _ _ _ Hrun) as Hl.
    unfold same_location in Hl. simpl in *.
    repeat split; (assumption || discriminate).
  - unfold finish. simpl. destruct (finished h); intros [= <- <-]; simpl;
      repeat split; reflexivity.
Qed.


(** X6.  A PUT whose URL names no notebook fails with status 400, whatever
    the body and the [copy] argument are, without calling the manager. *)
Theorem put_without_name_is_rejected (path : string) (r : request) (s : S) :
  let h := respond (NotebookHandler.put path None) r s in
  status h = 400 /\ manager_calls h = [] /\ notebook_manager h = s /\
  written h =
    [json_dumps
       (VDict [("message",
                VStr "Only PUT to full names. Use POST for directories.")])].
Proof.
  unfold respond, NotebookHandler.put.
  erewrite json_errors_http; cycle 1.
  - unfold NotebookHandler.put_body. run_step. reflexivity.
  - reflexivity.
  - now simpl.
Qed.



End Reading.

(** ** The status and the Location of a method that returns *)

(** Case analysis on what a manager method did. *)
Ltac split_call :=
  match goal with
  | |- context [?f (notebook_manager ?h)] =>
      destruct (f (notebook_manager h)) as [[? | ?] ?]
  end.

Section Returns.
Context {S : Type} `{NotebookManager S} `{Imports}.

Lemma finish_model_inversion (m : value) (location : bool) (h h' : handler S) :
  NotebookHandler._finish_model m location h = (inr tt, h') ->
  status h' = status h /\
  manager_calls h' = manager_calls h /\
  (location = true -> is_Some (headers h' !! "Location")).
Proof.
  unfold NotebookHandler._finish_model, NotebookHandler.notebook_location, finish.
  run_step.
  destruct location; simpl; split_fields; try discriminate;
    destruct (finished h); intros [= <-]; simpl;
    (split; [reflexivity |]; split; [reflexivity |]; intros Hl;
     first [discriminate
           | rewrite lookup_insert_ne by discriminate; rewrite lookup_insert_eq;
             eauto]).
Qed.

Lemma copy_returns_created copy_from path copy_to (h h' : handler S) :
  NotebookHandler._copy_notebook copy_from path copy_to h = (inr tt, h') ->
  status h' = 201 /\ is_Some (headers h' !! "Location").
Proof.
  unfold NotebookHandler._copy_notebook, log_info, set_status, nbm, bind. simpl.
  split_call; simpl; [discriminate |].
  intros Hrun. apply finish_model_inversion in Hrun as (Hst & _ & Hloc).
  split; [exact Hst | now apply Hloc].
Qed.

Lemma upload_returns_created model path name (h h' : handler S) :
  NotebookHandler._upload_notebook model path name h = (inr tt, h') ->
  status h' = 201 /\ is_Some (headers h' !! "Location").
Proof.
  unfold NotebookHandler._upload_notebook, log_info, set_status, nbm, bind, lift,
    ret, raise.
  simpl.
  destruct (name_given name); simpl;
    [destruct (setitem model "name" _) as [e | named]; simpl; [discriminate |] |];
    split_call; simpl;
    try discriminate;
    intros Hrun; apply finish_model_inversion in Hrun as (Hst & _ & Hloc);
    (split; [exact Hst | now apply Hloc]).
Qed.

Lemma create_empty_returns_created path name (h h' : handler S) :
  NotebookHandler._create_empty_notebook path name h = (inr tt, h') ->
  status h' = 201 /\ is_Some (headers h' !! "Location").
Proof.
  unfold NotebookHandler._create_empty_notebook, log_info, set_status, nbm, bind,
    lift, ret, raise.
  simpl.
  destruct (name_given name); simpl;
    split_call; simpl;
    try discriminate;
    intros Hrun; apply finish_model_inversion in Hrun as (Hst & _ & Hloc);
    (split; [exact Hst | now apply Hloc]).
Qed.

Lemma save_returns_saved model path name (h h' : handler S) :
  NotebookHandler._save_notebook model path name h = (inr tt, h') ->
  status h' = status h /\
  manager_calls h' = (manager_calls h ++ [save_notebook_model_ model name path])%list.
Proof.
  unfold NotebookHandler._save_notebook, log_info, nbm, bind, lift, ret, raise.
  simpl.
  split_call; simpl; [discriminate |].
  match goal with
  | |- context [getitem ?m "path"] => destruct (getitem m "path") as [? | vp]
  end; simpl; [discriminate |].
  destruct (ne_str vp (strip_slash path)); simpl;
    [| match goal with
       | |- context [getitem ?m "name"] => destruct (getitem m "name") as [? | vn]
       end; simpl; [discriminate |]];
    intros Hrun; apply finish_model_inversion in Hrun as (Hst & Hc & _);
    simpl in *; now split.
Qed.

(** X8.  A POST that returns has answered 201 with a Location and a
    Last-Modified header, whichever of copy, upload and create-empty it
    ran. *)
Theorem post_return_is_created (path : string) (name : option string)
    (h h' : handler S) :
  NotebookHandler.post_body path name h = (inr tt, h') ->
  name = None /\
  status h' = 201 /\
  is_Some (headers h' !! "Location") /\
  is_Some (headers h' !! "Last-Modified").
Proof.
  intros Hrun.
  pose proof (post_sets_last_modified _ _ _ _ Hrun) as Hlm.
  revert Hrun. unfold NotebookHandler.post_body. run_step.
  destruct name as [n |]; [discriminate |].
  destruct (nonempty _); [| destruct (truthy _)]; intros Hrun;
    [apply copy_returns_created in Hrun
    | apply upload_returns_created in Hrun
    | apply create_empty_returns_created in Hrun];
    destruct Hrun as [Hst Hloc]; now repeat split.
Qed.

(** X9.  A PATCH that returns has left the status as it was (200), has made
    the one call [update_notebook_model] with the body, and has set
    Location. *)
Theorem patch_return_keeps_status (path : string) (name : option string)
    (h h' : handler S) :
  NotebookHandler.patch_body path name h = (inr tt, h') ->
  status h' = status h /\
  is_Some (headers h' !! "Location") /\
  exists n,
    name = Some n /\
    manager_calls h' =
      (manager_calls h ++ [update_notebook_model_ (json_body (req h)) n path])%list.
Proof.
  unfold NotebookHandler.patch_body. run_step.
  destruct name as [n |]; [| discriminate].
  destruct (is_None _); [discriminate |].
  unfold nbm. split_call; simpl;
    [discriminate |].
  intros Hrun. apply finish_model_inversion in Hrun as (Hst & Hc & Hloc).
  simpl in *. split; [exact Hst |]. split; [now apply Hloc |].
  exists n. now split.
Qed.

(** X10.  A PUT that returns has answered 201 with a Location, unless it
    saved over an existing notebook: then the status is as it was (200) and
    the calls were [notebook_exists] and [save_notebook_model] with the
    body. *)
Theorem put_return_status (path : string) (name : option string) (h h' : handler S) :
  NotebookHandler.put_body path name h = (inr tt, h') ->
  (status h' = 201 /\ is_Some (headers h' !! "Location")) \/
  (status h' = status h /\
   exists n,
     name = Some n /\
     manager_calls h' =
       (manager_calls h ++
          [notebook_exists_ n path;
           save_notebook_model_ (json_body (req h)) n path])%list).
Proof.
  unfold NotebookHandler.put_body. run_step.
  destruct name as [n |]; [| discriminate].
  destruct (nonempty _).
  - destruct (negb _); simpl; [discriminate |].
    intros Hrun. left. now apply copy_returns_created in Hrun.
  - destruct (truthy (json_body (req h))).
    + unfold nbm. split_call;
        simpl; [discriminate |].
      match goal with
      | |- context [if truthy ?found then _ else _] => destruct (truthy found)
      end; intros Hrun.
      * right. apply save_returns_saved in Hrun as [Hst Hc]. simpl in *.
        split; [exact Hst |]. exists n. split; [reflexivity |].
        rewrite Hc, <- app_assoc. reflexivity.
      * left. now apply upload_returns_created in Hrun.
    + intros Hrun. left. now apply create_empty_returns_created in Hrun.
Qed.


End Returns.

(** ** Dicts, names and paths *)

Section Names.
Context {S : Type} `{NotebookManager S} `{Imports}.

Lemma dict_get_set_same (items : list (string * value)) (k : string) (v : value) :
  dict_get (dict_set items k v) k = Some v.
Proof.
  induction items as [| [k' v'] rest IH]; simpl.
  - now rewrite String.eqb_refl.
  - destruct (String.eqb_spec k' k) as [-> | Hne]; simpl.
    + now rewrite String.eqb_refl.
    + destruct (String.eqb_spec k' k); [contradiction | exact IH].
Qed.

Lemma dict_get_set_other (items : list (string * value)) (k k' : string) (v : value) :
  k' <> k -> dict_get (dict_set items k v) k' = dict_get items k'.
Proof.
  intros Hne. induction items as [| [k0 v0] rest IH]; simpl.
  - destruct (String.eqb_spec k k'); [congruence | reflexivity].
  - destruct (String.eqb_spec k0 k) as [-> | Hk0]; simpl.
    + destruct (String.eqb_spec k k'); [congruence | reflexivity].
    + destruct (String.eqb_spec k0 k'); [reflexivity | exact IH].
Qed.

(** An assignment to a key that is there replaces its value in place, and
    otherwise adds one entry at the end. *)
Lemma dict_set_length (items : list (string * value)) (k : string) (v : value) :
  length (dict_set items k v) =
    match dict_get items k with
    | Some _ => length items
    | None => Datatypes.S (length items)
    end.
Proof.
  induction items as [| [k' v'] rest IH]; simpl; [reflexivity |].
  destruct (String.eqb_spec k' k); simpl; [reflexivity |].
  rewrite IH. now destruct (dict_get rest k).
Qed.

(** X12.  An upload under a name hands the manager the body with ["name"]
    set to that name, whatever name the body carried, and every other key
    as it was; this is the one call that is made, whatever the manager
    answers. *)
Theorem upload_overrides_name (items : list (string * value)) (path name : string)
    (h : handler S) :
  name <> "" ->
  let named := VDict (dict_set items "name" (VStr name)) in
  manager_calls (snd (NotebookHandler._upload_notebook (VDict items) path (Some name) h))
    = (manager_calls h ++ [create_notebook_model_ named path])%list /\
  getitem named "name" = inr (VStr name) /\
  (forall k, k <> "name" -> getitem named k = getitem (VDict items) k) /\
  length (dict_set items "name" (VStr name)) =
    match getitem (VDict items) "name" with
    | inr _ => length items
    | inl _ => Datatypes.S (length items)
    end.
Proof.
  intros Hname. simpl. split; [| split; [| split]].
  - unfold NotebookHandler._upload_notebook, log_info, set_status, nbm, bind,
      lift, ret, raise.
    simpl. destruct (String.eqb_spec name ""); [contradiction |]. simpl.
    split_call; simpl; [reflexivity |].
    match goal with
    | |- context [NotebookHandler._finish_model ?m true ?h1] =>
        destruct (NotebookHandler._finish_model m true h1) as [r h2] eqn:Hf
    end.
    destruct (finish_model_keeps_manager _ _ _ _ _ Hf) as [Hc _].
    simpl in *. exact Hc.
  - now rewrite dict_get_set_same.
  - intros k Hk. now rewrite dict_get_set_other.
  - rewrite dict_set_length. now destruct (dict_get items "name").
Qed.

(** X13.  A PUT that has to create its notebook needs a JSON object as
    body: with any other non-empty body (a list, a number, a string) the
    name cannot be stored, the method raises [TypeError] after the
    existence check, and [create_notebook_model] is not called. *)
Theorem put_upload_needs_object (path name : string) (r : request) (s : S)
    (found : value) (s1 : S) :
  copy_argument r = "" ->
  truthy (json_body r) = true ->
  is_dict (json_body r) = false ->
  name <> "" ->
  notebook_exists name path s = (inr found, s1) ->
  truthy found = false ->
  let run := NotebookHandler.put_body path (Some name) (new_handler r s) in
  fst run = inl TypeError /\
  manager_calls (snd run) = [notebook_exists_ name path] /\
  notebook_manager (snd run) = s1 /\
  status (snd run) = 200 /\
  headers (snd run) = ∅ /\
  written (snd run) = [].
Proof.
  intros Hcopy Hbody Hdict Hname Hex Hfound. unfold copy_argument in Hcopy. simpl.
  unfold NotebookHandler.put_body. run_step. rewrite Hcopy, Hbody. simpl.
  rewrite (nbm_result (notebook_exists_ name path) _ (inr found) s1) by exact Hex.
  simpl. rewrite Hfound.
  unfold NotebookHandler._upload_notebook. run_step.
  destruct (String.eqb_spec name ""); [contradiction |]. simpl.
  destruct (json_body r); try discriminate; simpl; now repeat split.
Qed.

Lemma lstrip_no_leading (s : string) : has_leading_slash (lstrip_slash s) = false.
Proof.
  induction s as [| c s' IH]; simpl; [reflexivity |].
  destruct (Ascii.eqb c "/") eqn:Hc; [exact IH | simpl; exact Hc].
Qed.

Lemma rstrip_no_trailing (s : string) : has_trailing_slash (rstrip_slash s) = false.
Proof.
  induction s as [| c s' IH]; simpl; [reflexivity |].
  destruct (rstrip_slash s') as [| c' r] eqn:Hr.
  - destruct (Ascii.eqb c "/") eqn:Hc; simpl; [reflexivity | exact Hc].
  - simpl in *. exact IH.
Qed.

Lemma rstrip_keeps_leading (s : string) :
  has_leading_slash s = false -> has_leading_slash (rstrip_slash s) = false.
Proof.
  destruct s as [| c s']; simpl; [reflexivity |].
  intros Hc. destruct (rstrip_slash s'); simpl; [rewrite Hc |]; simpl; assumption.
Qed.

Lemma lstrip_fixed (s : string) : has_leading_slash s = false -> lstrip_slash s = s.
Proof. destruct s as [| c s']; simpl; [reflexivity |]. now intros ->. Qed.

Lemma rstrip_fixed (s : string) : has_trailing_slash s = false -> rstrip_slash s = s.
Proof.
  induction s as [| c s' IH]; simpl; [reflexivity |].
  destruct s' as [| c' s''].
  - simpl. now intros ->.
  - intros Ht. rewrite (IH Ht). reflexivity.
Qed.

(** X14.  The path [_save_notebook] compares with, [path.strip('/')],
    neither starts nor ends with a slash, and stripping it again changes
    nothing: the Location decision is the same for a path and for the path
    already stripped. *)
Theorem strip_slash_is_normal (path : string) :
  has_leading_slash (strip_slash path) = false /\
  has_trailing_slash (strip_slash path) = false /\
  strip_slash (strip_slash path) = strip_slash path /\
  forall v : value,
    ne_str v (strip_slash (strip_slash path)) = ne_str v (strip_slash path).
Proof.
  assert (Hl : has_leading_slash (strip_slash path) = false).
  { unfold strip_slash. apply rstrip_keeps_leading, lstrip_no_leading. }
  assert (Ht : has_trailing_slash (strip_slash path) = false).
  { unfold strip_slash. apply rstrip_no_trailing. }
  assert (Hi : strip_slash (strip_slash path) = strip_slash path).
  { unfold strip_slash at 1. rewrite (lstrip_fixed _ Hl). now apply rstrip_fixed. }
  repeat split; try assumption. intros v. now rewrite Hi.
Qed.

(** X15.  When the manager has made a checkpoint that has no string [id],
    the POST raises with the checkpoint already made: no Location header
    is set and the status is not 201. *)
Theorem checkpoint_without_id (path name : string) (r : request) (s : S)
    (checkpoint : value) (s' : S) :
  create_checkpoint name path s = (inr checkpoint, s') ->
  (forall checkpoint_id, getitem checkpoint "id" <> inr (VStr checkpoint_id)) ->
  let run := NotebookCheckpointsHandler.post_body path name (new_handler r s) in
  (exists e, fst run = inl e) /\
  manager_calls (snd run) = [create_checkpoint_ name path] /\
  notebook_manager (snd run) = s' /\
  status (snd run) = 200 /\
  headers (snd run) = ∅ /\
  written (snd run) = [].
Proof.
  intros Hc Hid. simpl. unfold NotebookCheckpointsHandler.post_body. run_step.
  rewrite (nbm_result (create_checkpoint_ name path) _ (inr checkpoint) s') by exact Hc.
  simpl.
  destruct (getitem checkpoint "id") as [e | v] eqn:Hget; simpl.
  - repeat split; eauto.
  - destruct v as [| | | checkpoint_id | | |];
      try (exfalso; exact (Hid _ eq_refl)); simpl; repeat split; eauto.
Qed.

(** X16.  DELETE of a notebook and the restore and delete of a checkpoint
    set no header and write no body; the status becomes 204 exactly when
    the manager's call returned, and is left as it was when it raised. *)
Theorem no_content_only_after_manager (e : endpoint) (h h' : handler S)
    (r : exn + unit) :
  answers_no_content e = true ->
  finished h = false ->
  body_of e h = (r, h') ->
  headers h' = headers h /\
  written h' = written h /\
  status h' = match r with
              | inr _ => 204
              | inl _ => status h
              end.
Proof.
  intros He Hfin.
  destruct e; try discriminate; simpl;
    unfold NotebookHandler.delete_body, ModifyNotebookCheckpointsHandler.post_body,
      ModifyNotebookCheckpointsHandler.delete_body, nbm, finish;
    run_step; split_call; simpl; rewrite ?Hfin;
    intros [= <- <-]; simpl; rewrite ?app_nil_r; now repeat split.
Qed.

End Names.

(** ** The same, on the in-memory manager *)

(** A PUT that saves [work/a.ipynb], on a fresh handler. *)
Lemma bodies_finish_or_raise_unwritten_witness :
  finished
    (snd (body_of (notebook_put "/work" (Some "a.ipynb"))
            (new_handler (request_with some_body None) one_notebook))) = true /\
  written
    (snd (body_of (notebook_get "/work" (Some "b.ipynb"))
            (new_handler (request_with VNone None) one_notebook))) = [].
Proof.
  split.
  - exact (@bodies_finish_or_raise_unwritten store manager imports
             (notebook_put "/work" (Some "a.ipynb"))
             (new_handler (request_with some_body None) one_notebook)
             _ (inr tt) eq_refl eq_refl).
  - exact (proj2 (@bodies_finish_or_raise_unwritten store manager imports
                    (notebook_get "/work" (Some "b.ipynb"))
                    (new_handler (request_with VNone None) one_notebook)
                    _ (inl not_found) eq_refl eq_refl)).
Defined.

Lemma bodies_touch_only_two_headers_witness :
  headers
    (snd (body_of (notebook_post "/work" None)
            (Handler (request_with VNone None) 200 {["Server" := VStr "TornadoServer"]}
               [] false one_notebook [] []))) !! "Server"
    = Some (VStr "TornadoServer").
Proof.
  set (h := Handler (request_with VNone None) 200 {["Server" := VStr "TornadoServer"]}
              [] false one_notebook [] []).
  set (run := body_of (notebook_post "/work" None) h).
  destruct (bodies_touch_only_two_headers (notebook_post "/work" None) h (snd run)
              (fst run) (surjective_pairing run)) as [_ Hk].
  rewrite (Hk "Server"); [reflexivity | discriminate | discriminate].
Defined.

Lemma bodies_call_manager_at_most_witness :
  exists cs : list call,
    manager_calls
      (snd (body_of (notebook_put "/work" (Some "a.ipynb"))
              (new_handler (request_with some_body None) one_notebook)))
      = ([] ++ cs)%list /\
    (length cs <= 2)%nat.
Proof.
  exact (@bodies_call_manager_at_most store manager imports
           (notebook_put "/work" (Some "a.ipynb"))
           (new_handler (request_with some_body None) one_notebook)
           _ (inr tt) eq_refl).
Defined.

Lemma get_is_read_only_witness :
  manager_calls
    (snd (NotebookHandler.get_body "/work" None
            (new_handler (request_with VNone None) one_notebook)))
    = [list_notebooks_ "/work"].
Proof.
  exact (proj1 (@get_is_read_only store manager imports "/work" None
                  (new_handler (request_with VNone None) one_notebook)
                  _ (inr tt) eq_refl)).
Defined.



Lemma post_return_is_created_witness :
  status
    (snd (NotebookHandler.post_body "/work" None
            (new_handler (request_with some_body None) one_notebook))) = 201.
Proof.
  set (run := NotebookHandler.post_body "/work" None
                (new_handler (request_with some_body None) one_notebook)).
  assert (Hrun : run = (inr tt, snd run)) by (vm_compute; reflexivity).
  exact (proj1 (proj2 (post_return_is_created "/work" None
                         (new_handler (request_with some_body None) one_notebook)
                         (snd run) Hrun))).
Defined.

Lemma patch_return_keeps_status_witness :
  status
    (snd (NotebookHandler.patch_body "/work" (Some "a.ipynb")
            (new_handler (request_with (VDict [("name", VStr "c.ipynb")]) None)
               one_notebook))) = 200.
Proof.
  set (run := NotebookHandler.patch_body "/work" (Some "a.ipynb")
                (new_handler (request_with (VDict [("name", VStr "c.ipynb")]) None)
                   one_notebook)).
  assert (Hrun : run = (inr tt, snd run)) by (vm_compute; reflexivity).
  exact (proj1 (patch_return_keeps_status "/work" (Some "a.ipynb")
                  (new_handler (request_with (VDict [("name", VStr "c.ipynb")]) None)
                     one_notebook)
                  (snd run) Hrun)).
Defined.

(** A PUT that creates, and a PUT that saves. *)
Lemma put_return_status_witness :
  (status
     (snd (NotebookHandler.put_body "/work" (Some "b.ipynb")
             (new_handler (request_with some_body None) one_notebook))) = 201 \/
   status
     (snd (NotebookHandler.put_body "/work" (Some "b.ipynb")
             (new_handler (request_with some_body None) one_notebook))) = 200) /\
  (status
     (snd (NotebookHandler.put_body "/work" (Some "a.ipynb")
             (new_handler (request_with some_body None) one_notebook))) = 201 \/
   status
     (snd (NotebookHandler.put_body "/work" (Some "a.ipynb")
             (new_handler (request_with some_body None) one_notebook))) = 200).
Proof.
  split.
  - set (run := NotebookHandler.put_body "/work" (Some "b.ipynb")
                  (new_handler (request_with some_body None) one_notebook)).
    assert (Hrun : run = (inr tt, snd run)) by (vm_compute; reflexivity).
    destruct (put_return_status "/work" (Some "b.ipynb")
                (new_handler (request_with some_body None) one_notebook)
                (snd run) Hrun)
      as [[Hs _] | [Hs _]]; [left | right]; exact Hs.
  - set (run := NotebookHandler.put_body "/work" (Some "a.ipynb")
                  (new_handler (request_with some_body None) one_notebook)).
    assert (Hrun : run = (inr tt, snd run)) by (vm_compute; reflexivity).
    destruct (put_return_status "/work" (Some "a.ipynb")
                (new_handler (request_with some_body None) one_notebook)
                (snd run) Hrun)
      as [[Hs _] | [Hs _]]; [left | right]; exact Hs.
Defined.


(** The body says [x.ipynb]; the notebook is uploaded as [b.ipynb]. *)
Lemma upload_overrides_name_witness :
  manager_calls
    (snd (NotebookHandler._upload_notebook
            (VDict [("name", VStr "x.ipynb"); ("content", VInt 1)]) "/work"
            (Some "b.ipynb") (new_handler (request_with VNone None) one_notebook)))
    = [create_notebook_model_
         (VDict [("name", VStr "b.ipynb"); ("content", VInt 1)]) "/work"].
Proof.
  apply (@upload_overrides_name store manager imports
           [("name", VStr "x.ipynb"); ("content", VInt 1)] "/work" "b.ipynb"
           (new_handler (request_with VNone None) one_notebook)).
  discriminate.
Defined.

(** A list as the body of a PUT to a new name. *)
Lemma put_upload_needs_object_witness :
  fst (NotebookHandler.put_body "/work" (Some "b.ipynb")
         (new_handler (request_with (VList [VInt 1]) None) one_notebook))
    = inl TypeError.
Proof.
  apply (@put_upload_needs_object store manager imports "/work" "b.ipynb"
           (request_with (VList [VInt 1]) None) one_notebook (VBool false) one_notebook
           eq_refl eq_refl eq_refl).
  - discriminate.
  - reflexivity.
  - reflexivity.
Defined.

(** A manager whose checkpoints have no id, and is otherwise the in-memory
    one. *)
Lemma checkpoint_without_id_witness :
  let nameless : NotebookManager store :=
    {| list_notebooks := list_notebooks;
       get_notebook_model := get_notebook_model;
       update_notebook_model := update_notebook_model;
       copy_notebook := copy_notebook;
       create_notebook_model := create_notebook_model;
       save_notebook_model := save_notebook_model;
       notebook_exists := notebook_exists;
       delete_notebook_model := delete_notebook_model;
       list_checkpoints := list_checkpoints;
       create_checkpoint := fun _ _ s => (inr (VDict [("last_modified", VDate 7)]), s);
       restore_checkpoint := restore_checkpoint;
       delete_checkpoint := delete_checkpoint |} in
  headers
    (snd (@NotebookCheckpointsHandler.post_body store nameless imports "/work" "a.ipynb"
            (new_handler (request_with VNone None) one_notebook))) = ∅.
Proof.
  intros nameless.
  apply (@checkpoint_without_id store nameless imports "/work" "a.ipynb"
           (request_with VNone None) one_notebook
           (VDict [("last_modified", VDate 7)]) one_notebook eq_refl).
  intros checkpoint_id. discriminate.
Defined.

(** Deleting [work/a.ipynb], and deleting a notebook that is not there. *)
Lemma no_content_only_after_manager_witness :
  status
    (snd (body_of (notebook_delete "/work" (Some "a.ipynb"))
            (new_handler (request_with VNone None) one_notebook))) = 204 /\
  status
    (snd (body_of (notebook_delete "/work" (Some "b.ipynb"))
            (new_handler (request_with VNone None) one_notebook))) = 200.
Proof.
  split.
  - apply (@no_content_only_after_manager store manager imports
             (notebook_delete "/work" (Some "a.ipynb"))
             (new_handler (request_with VNone None) one_notebook)
             _ (inr tt) eq_refl eq_refl eq_refl).
  - apply (@no_content_only_after_manager store manager imports
             (notebook_delete "/work" (Some "b.ipynb"))
             (new_handler (request_with VNone None) one_notebook)
             _ (inl not_found) eq_refl eq_refl eq_refl).
Defined.
